(** * charm-sysconfig: the helper library [lib/lib_sysconfig.py]

    A shallow embedding of the configuration-flag parser, of the
    boot-resource tracker ([BootResourceState]) and of the procedures of
    [SysConfigHelper], with the properties the specification states about
    them.

    Conventions of the embedding.
    - Python [str] is [string]; the parser only looks for the ASCII
      characters space, comma and equals sign, which never occur inside a
      multi-byte UTF-8 sequence, so working on bytes loses nothing.
    - A Python [dict] is a [gmap]; [None] from [dict.get] is [None].
    - An aware UTC [datetime] is the number of microseconds since
      [datetime.min] (0001-01-01T00:00:00Z), an integer in
      [0, datetime_max].  A POSIX timestamp (the float of seconds the
      tracker stores) is the number of microseconds since
      1970-01-01T00:00:00Z.  A double holds that count exactly, and gives
      it back on conversion, only within 2^33 seconds of the epoch (from
      1697-10-17 to 2242-03-16); [float_exact] names that range, and every property
      that reads back an instant recorded from the clock assumes it.
    - Procedures with effects run in a state-and-exception monad over a
      [world]: the key-value store, the files on disk and the log of calls
      made to the collaborators (renderer, apt, subprocess, service
      manager, logger). *)

From Stdlib Require Import ZArith Ascii String List Lia Bool.
From stdpp Require Import base option list strings gmap.

Local Open Scope string_scope.
Local Open Scope Z_scope.

(** ** Strings: the pieces of [str] the module uses *)

Module PyStr.

(** [s.replace(c, "")] for a one-character [c]. *)
Fixpoint remove (c : ascii) (s : string) : string :=
  match s with
  | EmptyString => EmptyString
  | String a s' =>
      if Ascii.eqb a c then remove c s' else String a (remove c s')
  end.

(** [c in s]. *)
Fixpoint contains (c : ascii) (s : string) : bool :=
  match s with
  | EmptyString => false
  | String a s' => Ascii.eqb a c || contains c s'
  end.

(** Put [a] in front of the first field of a split. *)
Definition push (a : ascii) (fs : list string) : list string :=
  match fs with
  | [] => [String a EmptyString]
  | f :: fs' => String a f :: fs'
  end.

(** [s.split(sep)] for a one-character [sep]: never the empty list. *)
Fixpoint split (sep : ascii) (s : string) : list string :=
  match s with
  | EmptyString => [EmptyString]
  | String a s' =>
      if Ascii.eqb a sep then EmptyString :: split sep s'
      else push a (split sep s')
  end.

(** [s.split(sep, maxsplit)]: at most [maxsplit] cuts, the rest of the
    string stays whole in the last field. *)
Fixpoint split_max (sep : ascii) (maxsplit : nat) (s : string)
  : list string :=
  match s with
  | EmptyString => [EmptyString]
  | String a s' =>
      match maxsplit with
      | O => [s]
      | S n =>
          if Ascii.eqb a sep then EmptyString :: split_max sep n s'
          else push a (split_max sep maxsplit s')
      end
  end.

(** [sep.join(fs)]. *)
Fixpoint join (sep : ascii) (fs : list string) : string :=
  match fs with
  | [] => EmptyString
  | [f] => f
  | f :: fs' => f ++ String sep (join sep fs')
  end.

(** The text before the first [c] (all of [s] when there is none). *)
Fixpoint before (c : ascii) (s : string) : string :=
  match s with
  | EmptyString => EmptyString
  | String a s' =>
      if Ascii.eqb a c then EmptyString else String a (before c s')
  end.

(** The text after the first [c] (empty when there is none). *)
Fixpoint after (c : ascii) (s : string) : string :=
  match s with
  | EmptyString => EmptyString
  | String a s' => if Ascii.eqb a c then s' else after c s'
  end.

End PyStr.

(** ** [parse_config_flags] *)

(** One turn of the loop: [pair.split("=")[0]] and [pair.split("=")[1]]
    are list indexings, which raise [IndexError] ([None] here) when the
    field is missing. *)
Definition parse_pair (parsed : gmap string string) (kv_pair : string)
  : option (gmap string string) :=
  if PyStr.contains "=" kv_pair
     && (length (PyStr.split_max "=" 1 kv_pair) =? 2)%nat
  then
    k ← PyStr.split "=" kv_pair !! 0%nat;
    v ← PyStr.split "=" kv_pair !! 1%nat;
    Some (<[k := v]> parsed)
  else Some parsed.

Fixpoint parse_pairs (parsed : gmap string string) (pairs : list string)
  : option (gmap string string) :=
  match pairs with
  | [] => Some parsed
  | kv_pair :: rest => parsed' ← parse_pair parsed kv_pair; parse_pairs parsed' rest
  end.

Definition parse_config_flags (config_flags : string)
  : option (gmap string string) :=
  let config_flags := PyStr.remove " " config_flags in
  let key_value_pairs := PyStr.split "," config_flags in
  parse_pairs ∅ key_value_pairs.

(** The parser as the specification words it: drop the spaces, cut at the
    commas, keep the fragments with an equals sign, and bind the text
    before the first equals sign to the text between the first and the
    second one; a later fragment overrides an earlier one with the same
    key. *)
Definition flag_of_fragment (fragment : string) : string * string :=
  (PyStr.before "=" fragment, PyStr.before "=" (PyStr.after "=" fragment)).

Definition kept_fragments (config_flags : string) : list string :=
  filter (λ f, PyStr.contains "=" f = true)
         (PyStr.split "," (PyStr.remove " " config_flags)).

Definition parse_config_flags_spec (config_flags : string)
  : gmap string string :=
  list_to_map (reverse (flag_of_fragment <$> kept_fragments config_flags)).

(** ** Time *)

(** [datetime.max] as microseconds since [datetime.min]:
    9999-12-31T23:59:59.999999 is the last microsecond of day 3652059. *)
Definition datetime_min : Z := 0.
Definition datetime_max : Z := 3652059 * 86400 * 1000000 - 1.

(** 1970-01-01 is day 719163 of the proleptic Gregorian calendar, hence
    719162 whole days after [datetime.min]. *)
Definition epoch : Z := 719162 * 86400 * 1000000.

Definition valid_datetime (t : Z) : Prop :=
  datetime_min <= t <= datetime_max.

Definition valid_datetimeb (t : Z) : bool :=
  (datetime_min <=? t) && (t <=? datetime_max).

(** The instants whose POSIX timestamp a double of seconds carries to the
    microsecond: strictly within 2^33 seconds of the epoch.  There the
    spacing of doubles is at most 2^-20 s, below one microsecond, so
    rounding to the nearest microsecond undoes the rounding to a double;
    from 2^33 seconds on the spacing is 2^-19 s and neighbouring
    microseconds collide. *)
Definition float_range : Z := 8589934592 * 1000000.

Definition float_exact (dt : Z) : Prop :=
  - float_range < dt - epoch < float_range.

(** ** Exceptions and results *)

Inductive exn :=
| IndexError               (* list index out of range *)
| OverflowError            (* date value out of range *)
| FileNotFoundError (path : string)
| CalledProcessError (argv : list string) (status : Z).

Inductive result (A : Type) :=
| Ok (a : A)
| Raise (e : exn).
Arguments Ok {A} a.
Arguments Raise {A} e.

(** [dt.timestamp()] of an aware datetime, in microseconds.  The source
    gets a float of seconds: the same number where [float_exact dt]. *)
Definition timestamp (dt : Z) : Z := dt - epoch.

(** [datetime.fromtimestamp(t, timezone.utc)] of a timestamp in
    microseconds: fails outside the years 1..9999.  On the float of a
    [float_exact] instant the source gets that instant back. *)
Definition fromtimestamp (t : Z) : result Z :=
  if valid_datetimeb (t + epoch) then Ok (t + epoch) else Raise OverflowError.

(** ** The host and the world *)

(** What the host answers when asked; a snapshot taken at the time of a
    call.  [exit_status] is the exit status a command would end with. *)
Record host := {
  release : string;                 (* os.uname().release *)
  is_container : bool;              (* host.is_container() *)
  distrib_codename : string;        (* host.get_distrib_codename() *)
  now : Z;                          (* datetime.now(timezone.utc) *)
  uptime : Z;                       (* first field of /proc/uptime, in us *)
  exit_status : list string → Z
}.

(** Context values handed to the template renderer. *)
Inductive ctxval :=
| VStr (s : string)
| VBool (b : bool)
| VDict (d : gmap string string).

(** An argument of a log message's [str.format]. *)
Inductive logarg :=
| AStr (s : string)
| AStrs (l : list string).

(** Calls made to the collaborators that change something outside the
    process, oldest first. *)
Inductive event :=
| Log (fmt : string) (args : list logarg) (level : option string)
| Render (source target : string) (context : gmap string ctxval)
| CheckCall (argv : list string)
| AptUpdate
| AptInstall (pkgs : list string)
| ServiceRestart (name : string)
| Remove (path : string)
| KvSet (key : string) (value : Z).

Record world := {
  db : gmap string Z;               (* unitdata.kv() *)
  files : gset string;              (* paths that exist *)
  trace : list event
}.

(** ** The monad of procedures *)

Definition M (A : Type) : Type := world → result A * world.

Definition ret {A} (a : A) : M A := λ w, (Ok a, w).

Definition bind {A B} (m : M A) (k : A → M B) : M B :=
  λ w, match m w with
       | (Ok a, w') => k a w'
       | (Raise e, w') => (Raise e, w')
       end.

Definition raise {A} (e : exn) : M A := λ w, (Raise e, w).

Notation "'let!' x ':=' m 'in' k" := (bind m (λ x, k))
  (at level 10, x name, m at level 100, k at level 200).
Notation "m ';;' k" := (bind m (λ _, k))
  (at level 100, k at level 200, right associativity).

Definition emit (e : event) : M unit :=
  λ w, (Ok tt, {| db := db w; files := files w; trace := trace w ++ [e] |}).

Definition lift {A} (r : result A) : M A := λ w, (r, w).

(** ** [BootResourceState] *)

Definition running_kernel (h : host) : string := release h.

(** [boot_time()]: the clock minus the uptime; the subtraction of a
    [timedelta] raises when it leaves the range of [datetime]. *)
Definition boot_time (h : host) : result Z :=
  let boot_time := now h - uptime h in
  if valid_datetimeb boot_time then Ok boot_time else Raise OverflowError.

Definition key_for (resource_name : string) : string :=
  "sysconfig.boot_resource." ++ resource_name.

(** [self.db.set(key, value)] *)
Definition db_set (key : string) (value : Z) : M unit :=
  λ w, (Ok tt, {| db := <[key := value]> (db w);
                  files := files w;
                  trace := trace w ++ [KvSet key value] |}).

(** [self.db.get(key)] *)
Definition db_get (key : string) : M (option Z) :=
  λ w, (Ok (db w !! key), w).

Definition set_resource (h : host) (resource_name : string) : M unit :=
  let timestamp_ := now h in
  db_set (key_for resource_name) (timestamp timestamp_).

Definition get_resource_changed_timestamp (resource_name : string) : M Z :=
  let! tfloat := db_get (key_for resource_name) in
  match tfloat with
  | Some tfloat => lift (fromtimestamp tfloat)
  | None => ret datetime_min
  end.

(** [[x for x in xs if p(x)]] with an effectful test. *)
Fixpoint filterM {A} (p : A → M bool) (xs : list A) : M (list A) :=
  match xs with
  | [] => ret []
  | x :: xs' =>
      let! keep := p x in
      let! rest := filterM p xs' in
      ret (if keep then x :: rest else rest)
  end.

Definition resources_changed_since_boot (h : host)
    (resource_names : list string) : M (list string) :=
  let! boot_ts := lift (boot_time h) in
  let! changed :=
    filterM (λ name,
               let! ts := get_resource_changed_timestamp name in
               ret (boot_ts <? ts))
            resource_names in
  ret changed.

(** ** [SysConfigHelper] *)

Definition GRUB_DEFAULT (version : string) : string :=
  "Advanced options for Ubuntu>Ubuntu, with Linux " ++ version.
Definition CPUFREQUTILS_TMPL := "cpufrequtils.j2".
Definition GRUB_CONF_TMPL := "grub.j2".
Definition SYSTEMD_SYSTEM_TMPL := "etc.systemd.system.conf.j2".

Definition CPUFREQUTILS := "/etc/default/cpufrequtils".
Definition GRUB_CONF := "/etc/default/grub.d/90-sysconfig.cfg".
Definition SYSTEMD_SYSTEM := "/etc/systemd/system.conf".
Definition KERNEL := "kernel".

Definition DEBUG : option string := Some "DEBUG".

(** The charm configuration, one field per option read by the helper. *)
Record config := {
  enable_container : bool;
  reservation : string;
  cpu_range : string;
  hugepages : string;
  hugepagesz : string;
  raid_autodetection : string;
  enable_pti : bool;
  enable_iommu : bool;
  grub_config_flags_option : string;
  systemd_config_flags_option : string;
  kernel_version : string;
  update_grub : bool;
  governor : string
}.

(** Truth value of a [str]. *)
Definition truthy (s : string) : bool := negb (String.eqb s "").

(** [if cond: d[key] = value] *)
Definition assign_if {V} (cond : bool) (key : string) (value : V)
    (d : gmap string V) : gmap string V :=
  if cond then <[key := value]> d else d.

(** [x in (a, b, ...)] on strings. *)
Definition py_in (x : string) (xs : list string) : bool :=
  existsb (String.eqb x) xs.

(** Collaborators. *)
Definition log (fmt : string) (args : list logarg) (level : option string)
  : M unit := emit (Log fmt args level).

Definition render (source target : string) (context : gmap string ctxval)
  : M unit :=
  λ w, (Ok tt, {| db := db w;
                  files := {[target]} ∪ files w;
                  trace := trace w ++ [Render source target context] |}).

Definition check_call (h : host) (argv : list string) : M unit :=
  emit (CheckCall argv) ;;
  if exit_status h argv =? 0 then ret tt
  else raise (CalledProcessError argv (exit_status h argv)).

Definition path_exists (path : string) : M bool :=
  λ w, (Ok (bool_decide (path ∈ files w)), w).

Definition os_remove (path : string) : M unit :=
  λ w, if bool_decide (path ∈ files w)
       then (Ok tt, {| db := db w;
                       files := files w ∖ {[path]};
                       trace := trace w ++ [Remove path] |})
       else (Raise (FileNotFoundError path), w).

Definition of_option {A} (o : option A) : M A :=
  match o with
  | Some a => ret a
  | None => raise IndexError
  end.

Section SysConfigHelper.

Variable charm_config : config.
Variable h : host.

Definition grub_config_flags : M (gmap string string) :=
  of_option (parse_config_flags (grub_config_flags_option charm_config)).

Definition systemd_config_flags : M (gmap string string) :=
  of_option (parse_config_flags (systemd_config_flags_option charm_config)).

Definition _render_boot_resource (source target : string)
    (context : gmap string ctxval) : M unit :=
  render source target context ;;
  set_resource h target.

Definition _is_kernel_already_running : M bool :=
  let configured := kernel_version charm_config in
  if String.eqb configured (running_kernel h) then
    log "Already running kernel: {}" [AStr configured] DEBUG ;;
    ret true
  else ret false.

Definition _update_grub : M unit :=
  if update_grub charm_config && negb (is_container h) then
    check_call h ["/usr/sbin/update-grub"] ;;
    log "Running update-grub to apply grub conf updates" [] DEBUG
  else ret tt.

Definition update_grub_file : M unit :=
  let context : gmap string ctxval := ∅ in
  let context :=
    assign_if (String.eqb (reservation charm_config) "isolcpus")
      "cpu_range" (VStr (cpu_range charm_config)) context in
  let context :=
    assign_if (truthy (hugepages charm_config))
      "hugepages" (VStr (hugepages charm_config)) context in
  let context :=
    assign_if (truthy (hugepagesz charm_config))
      "hugepagesz" (VStr (hugepagesz charm_config)) context in
  let context :=
    assign_if (truthy (raid_autodetection charm_config))
      "raid" (VStr (raid_autodetection charm_config)) context in
  let context :=
    assign_if (negb (enable_pti charm_config))
      "pti_off" (VBool true) context in
  let context :=
    assign_if (enable_iommu charm_config)
      "iommu" (VBool true) context in
  let! flags := grub_config_flags in
  let context := <["grub_config_flags" := VDict flags]> context in
  let! pin :=
    (if truthy (kernel_version charm_config)
     then let! running := _is_kernel_already_running in ret (negb running)
     else ret false) in
  let context :=
    assign_if pin
      "grub_default" (VStr (GRUB_DEFAULT (kernel_version charm_config)))
      context in
  _render_boot_resource GRUB_CONF_TMPL GRUB_CONF context ;;
  log "grub configuration updated" [] None ;;
  _update_grub.

Definition update_systemd_system_file : M unit :=
  let context : gmap string ctxval := ∅ in
  let context :=
    assign_if (String.eqb (reservation charm_config) "affinity")
      "cpu_range" (VStr (cpu_range charm_config)) context in
  let! flags := systemd_config_flags in
  let context := <["systemd_config_flags" := VDict flags]> context in
  _render_boot_resource SYSTEMD_SYSTEM_TMPL SYSTEMD_SYSTEM context ;;
  log "systemd configuration updated" [] None.

Definition install_configured_kernel : M unit :=
  let! skip :=
    (if negb (truthy (kernel_version charm_config)) then ret true
     else _is_kernel_already_running) in
  if skip then
    log "kernel running already to the reuired version" [] DEBUG
  else
    let configured := kernel_version charm_config in
    let pkgs := (λ tmpl : string, tmpl ++ configured)
                  <$> ["linux-image-"; "linux-modules-extra-"] in
    emit AptUpdate ;;
    emit (AptInstall pkgs) ;;
    log "installing: {}" [AStrs pkgs] None ;;
    set_resource h KERNEL.

Definition ondemand (action : string) : list string :=
  ["/usr/sbin/update-rc.d"; "-f"; "ondemand"; action;
   ">"; "/dev/null"; "2>&1"].

Definition update_cpufreq : M unit :=
  if negb (py_in (governor charm_config) [""; "performance"; "powersave"])
  then ret tt
  else
    let context : gmap string ctxval :=
      {[ "governor" := VStr (governor charm_config) ]} in
    _render_boot_resource CPUFREQUTILS_TMPL CPUFREQUTILS context ;;
    (if String.eqb (distrib_codename h) "xenial" && negb (is_container h)
     then
       log ("disabling the ondemand initscript for lp#1822774"
            ++ " and lp#740127 if a governor is specified") [] DEBUG ;;
       if truthy (governor charm_config)
       then check_call h (ondemand "remove")
       else check_call h (ondemand "defaults")
     else ret tt) ;;
    emit (ServiceRestart "cpufrequtils").

Definition remove_grub_configuration : M unit :=
  let grub_configuration_path := GRUB_CONF in
  let! present := path_exists grub_configuration_path in
  if negb present then ret tt
  else
    os_remove grub_configuration_path ;;
    log "deleted grub configuration at " [AStr grub_configuration_path]
        DEBUG ;;
    _update_grub ;;
    set_resource h GRUB_CONF.

(** The double quote, and a list of words as the log messages print it:
    each word quoted, separated by a comma and a space, in brackets. *)
Definition dquote : string := String (ascii_of_nat 34) EmptyString.

Fixpoint quoted_words (words : list string) : string :=
  match words with
  | [] => EmptyString
  | [x] => dquote ++ x ++ dquote
  | x :: rest => dquote ++ x ++ dquote ++ ", " ++ quoted_words rest
  end.

Definition possible_values (words : list string) : string :=
  "Possible values: [" ++ quoted_words words ++ "]".

Definition is_config_valid : M bool :=
  let valid := true in
  let! valid :=
    (if negb (py_in (reservation charm_config) ["off"; "isolcpus"; "affinity"])
     then
       log ("reservation not valid. "
            ++ possible_values ["off"; "isolcpus"; "affinity"]) [] DEBUG ;;
       ret false
     else ret valid) in
  let! valid :=
    (if negb (py_in (raid_autodetection charm_config)
                [""; "noautodetect"; "partitionable"])
     then
       log ("raid-autodetection not valid. "
            ++ possible_values ["off"; "noautodetect"; "partitionable"])
           [] DEBUG ;;
       ret false
     else ret valid) in
  let! valid :=
    (if negb (py_in (governor charm_config) [""; "powersave"; "performance"])
     then
       log ("governor not valid. "
            ++ possible_values [""; "powersave"; "performance"]) [] DEBUG ;;
       ret false
     else ret valid) in
  ret valid.

Definition remove_systemd_configuration : M unit :=
  let context : gmap string ctxval := ∅ in
  _render_boot_resource SYSTEMD_SYSTEM_TMPL SYSTEMD_SYSTEM context ;;
  log "deleted systemd configuration at " [AStr SYSTEMD_SYSTEM] DEBUG.

Definition remove_cpufreq_configuration : M unit :=
  let context : gmap string ctxval := ∅ in
  (if String.eqb (distrib_codename h) "xenial" && negb (is_container h)
   then
     log ("Enabling the ondemand initscript for lp#1822774"
          ++ " and lp#740127") [] (Some "DEBUG") ;;
     check_call h (ondemand "defaults")
   else ret tt) ;;
  _render_boot_resource CPUFREQUTILS_TMPL CPUFREQUTILS context ;;
  log "deleted cpufreq configuration at " [AStr CPUFREQUTILS] DEBUG ;;
  emit (ServiceRestart "cpufrequtils").

End SysConfigHelper.

(** * Definitions used by the statements *)

(** What one fragment adds to the flags parsed so far. *)
Definition bind_fragment (parsed : gmap string string) (fragment : string)
  : gmap string string :=
  if PyStr.contains "=" fragment
  then <[(flag_of_fragment fragment).1 := (flag_of_fragment fragment).2]>
         parsed
  else parsed.

(** Every stored timestamp denotes a datetime: what the store holds when
    all its entries were written by [set_resource]. *)
Definition wf_db (d : gmap string Z) : Prop :=
  ∀ k t, d !! k = Some t → valid_datetime (t + epoch).

(** The instant recorded for a resource, as a datetime; the dawn of time
    when nothing was recorded. *)
Definition last_changed (d : gmap string Z) (resource_name : string) : Z :=
  match d !! key_for resource_name with
  | Some t => t + epoch
  | None => datetime_min
  end.

(** A fresh unit: nothing recorded, no file written, no call made. *)
Definition w0 : world := {| db := ∅; files := ∅; trace := [] |}.

(** A host booted an hour ago, on 2023-11-14. *)
Definition h0 : host :=
  {| release := "5.15.0-50-generic";
     is_container := false;
     distrib_codename := "xenial";
     now := epoch + 1700000000000000;
     uptime := 3600000000;
     exit_status := λ _, 0 |}.

(** The host [elapsed] microseconds later in the same boot: the clock
    and the uptime grow together. *)
Definition later (elapsed : Z) (h : host) : host :=
  {| release := release h;
     is_container := is_container h;
     distrib_codename := distrib_codename h;
     now := now h + elapsed;
     uptime := uptime h + elapsed;
     exit_status := exit_status h |}.

(** The contexts handed to the renderer for [target], oldest first. *)
Definition contexts_rendered_to (target : string) (tr : list event)
  : list (gmap string ctxval) :=
  omap (λ e, match e with
             | Render _ target' context =>
                 if String.eqb target' target then Some context else None
             | _ => None
             end) tr.

(** The world after some more calls to the collaborators. *)
Definition logged (w : world) (evs : list event) : world :=
  {| db := db w; files := files w; trace := trace w ++ evs |}.

(** The command line [_update_grub] runs. *)
Definition update_grub_command : list string := ["/usr/sbin/update-grub"].

(** A call to the logger. *)
Definition is_log (e : event) : Prop :=
  match e with
  | Log _ _ _ => True
  | _ => False
  end.

(** A configuration asking for a kernel other than the one [h0] runs. *)
Definition cfg0 : config :=
  {| enable_container := false;
     reservation := "isolcpus";
     cpu_range := "2-7";
     hugepages := "100";
     hugepagesz := "1G";
     raid_autodetection := "";
     enable_pti := true;
     enable_iommu := true;
     grub_config_flags_option := "GRUB_TIMEOUT=10, quiet";
     systemd_config_flags_option := "";
     kernel_version := "5.15.0-99-generic";
     update_grub := true;
     governor := "performance" |}.

(** [c] with the governor option set to [g]. *)
Definition with_governor (g : string) (c : config) : config :=
  {| enable_container := enable_container c;
     reservation := reservation c;
     cpu_range := cpu_range c;
     hugepages := hugepages c;
     hugepagesz := hugepagesz c;
     raid_autodetection := raid_autodetection c;
     enable_pti := enable_pti c;
     enable_iommu := enable_iommu c;
     grub_config_flags_option := grub_config_flags_option c;
     systemd_config_flags_option := systemd_config_flags_option c;
     kernel_version := kernel_version c;
     update_grub := update_grub c;
     governor := g |}.

(** A procedure keeps the store well formed, whatever its outcome (value
    or exception). *)
Definition preserves {A} (m : M A) : Prop :=
  ∀ w, wf_db (db w) → wf_db (db (m w).2).

(** The host a minute later, having rebooted into [kernel] thirty seconds
    ago. *)
Definition rebooted (h : host) (kernel : string) : host :=
  {| release := kernel;
     is_container := is_container h;
     distrib_codename := distrib_codename h;
     now := now h + 60000000;
     uptime := 30000000;
     exit_status := exit_status h |}.

(** Flags written the way the option expects them: [key=value] pairs
    joined by commas. *)
Definition flag_text (flag : string * string) : string :=
  flag.1 ++ String "=" flag.2.

Definition flags_text (flags : list (string * string)) : string :=
  PyStr.join "," (flag_text <$> flags).

(** A key or a value the flag syntax can carry: no space, comma or equals
    sign. *)
Definition plain (s : string) : Prop :=
  PyStr.contains " " s = false
  ∧ PyStr.contains "," s = false
  ∧ PyStr.contains "=" s = false.

(** The procedures a hook can call on the helper, and a unit's history: a
    sequence of calls, each with the configuration and the host of its
    time.  An exception ends the hook, not the unit: the next call finds
    the world as the failed one left it. *)
Inductive procedure :=
| IsConfigValid
| UpdateGrubFile
| UpdateSystemdSystemFile
| InstallConfiguredKernel
| UpdateCpufreq
| RemoveGrubConfiguration
| RemoveSystemdConfiguration
| RemoveCpufreqConfiguration.

Definition call (cfg : config) (h : host) (p : procedure) (w : world)
  : world :=
  match p with
  | IsConfigValid => (is_config_valid cfg w).2
  | UpdateGrubFile => (update_grub_file cfg h w).2
  | UpdateSystemdSystemFile => (update_systemd_system_file cfg h w).2
  | InstallConfiguredKernel => (install_configured_kernel cfg h w).2
  | UpdateCpufreq => (update_cpufreq cfg h w).2
  | RemoveGrubConfiguration => (remove_grub_configuration cfg h w).2
  | RemoveSystemdConfiguration => (remove_systemd_configuration h w).2
  | RemoveCpufreqConfiguration => (remove_cpufreq_configuration h w).2
  end.

Definition history (calls : list (config * host * procedure)) (w : world)
  : world :=
  foldl (λ w c, call c.1.1 c.1.2 c.2 w) w calls.

(** The resources the helper records. *)
Definition tracked : list string :=
  [GRUB_CONF; SYSTEMD_SYSTEM; CPUFREQUTILS; KERNEL].

(** The command lines run, oldest first. *)
Definition check_calls (tr : list event) : list (list string) :=
  omap (λ e, match e with CheckCall argv => Some argv | _ => None end) tr.

(** The context of the grub file as a function of the configuration and
    of the running kernel release: a table of the knobs, each with the
    condition under which it is set (the knob set last comes first). *)
Definition knobs_context (knobs : list (bool * string * ctxval))
  : gmap string ctxval :=
  list_to_map ((λ knob, (knob.1.2, knob.2))
                 <$> filter (λ knob, knob.1.1 = true) knobs).

Definition grub_context (cfg : config) (running : string)
  : gmap string ctxval :=
  knobs_context
    [ (bool_decide (kernel_version cfg ≠ "" ∧ kernel_version cfg ≠ running),
       "grub_default", VStr (GRUB_DEFAULT (kernel_version cfg)));
      (true, "grub_config_flags",
       VDict (parse_config_flags_spec (grub_config_flags_option cfg)));
      (enable_iommu cfg, "iommu", VBool true);
      (negb (enable_pti cfg), "pti_off", VBool true);
      (bool_decide (raid_autodetection cfg ≠ ""), "raid",
       VStr (raid_autodetection cfg));
      (bool_decide (hugepagesz cfg ≠ ""), "hugepagesz",
       VStr (hugepagesz cfg));
      (bool_decide (hugepages cfg ≠ ""), "hugepages", VStr (hugepages cfg));
      (bool_decide (reservation cfg = "isolcpus"), "cpu_range",
       VStr (cpu_range cfg)) ].

(** A host like [h] but a container, in which every command fails. *)
Definition contained (h : host) : host :=
  {| release := release h;
     is_container := true;
     distrib_codename := distrib_codename h;
     now := now h;
     uptime := uptime h;
     exit_status := λ _, 1 |}.

(** A host like [h] on which every command fails. *)
Definition failing (h : host) : host :=
  {| release := release h;
     is_container := is_container h;
     distrib_codename := distrib_codename h;
     now := now h;
     uptime := uptime h;
     exit_status := λ _, 1 |}.

(** A procedure keeps a property of the store, whatever its outcome. *)
Definition keeps {A} (I : gmap string Z → Prop) (m : M A) : Prop :=
  ∀ w, I (db w) → I (db (m w).2).

(** A short history of [cfg0] on [h0]: validate, install the kernel,
    write the three files, remove the grub file again. *)
Definition history0 : list (config * host * procedure) :=
  [ (cfg0, h0, IsConfigValid);
    (cfg0, later 1000000 h0, InstallConfiguredKernel);
    (cfg0, later 2000000 h0, UpdateGrubFile);
    (cfg0, later 3000000 h0, UpdateSystemdSystemFile);
    (cfg0, later 4000000 h0, UpdateCpufreq);
    (cfg0, later 5000000 h0, RemoveGrubConfiguration) ].

(** * Properties *)

(** ** Splitting strings *)

Section SplitFacts.

Variable c : ascii.

Lemma split_nonempty s : PyStr.split c s ≠ [].
Proof.
  destruct s as [|a s]; simpl; [done|].
  destruct (Ascii.eqb a c); [done|].
  destruct (PyStr.split c s); done.
Qed.

(** A string without the separator is its own single field; otherwise
    the first field is the text before the separator and the other
    fields come from the text after it. *)
Lemma split_unfold s :
  PyStr.split c s =
    if PyStr.contains c s
    then PyStr.before c s :: PyStr.split c (PyStr.after c s)
    else [s].
Proof.
  induction s as [|a s IH]; simpl; [done|].
  destruct (Ascii.eqb a c); simpl; [done|].
  rewrite IH. destruct (PyStr.contains c s); done.
Qed.

Lemma split_max_one s :
  PyStr.split_max c 1 s =
    if PyStr.contains c s
    then [PyStr.before c s; PyStr.after c s]
    else [s].
Proof.
  induction s as [|a s IH]; simpl; [done|].
  destruct (Ascii.eqb a c); simpl.
  - destruct s; done.
  - rewrite IH. destruct (PyStr.contains c s); done.
Qed.

Lemma before_no_sep s : PyStr.contains c (PyStr.before c s) = false.
Proof.
  induction s as [|a s IH]; simpl; [done|].
  destruct (Ascii.eqb a c) eqn:E; simpl; [done|].
  by rewrite E.
Qed.

Lemma before_after s :
  PyStr.contains c s = true →
  s = PyStr.before c s ++ String c (PyStr.after c s).
Proof.
  induction s as [|a s IH]; simpl; [done|].
  destruct (Ascii.eqb a c) eqn:E; simpl.
  - intros _. apply Ascii.eqb_eq in E. by subst.
  - intros Hc. rewrite (IH Hc) at 1. reflexivity.
Qed.

Lemma split_fields_no_sep s f :
  f ∈ PyStr.split c s → PyStr.contains c f = false.
Proof.
  revert f. induction s as [|a s IH]; simpl; intros f.
  - by intros ->%list_elem_of_singleton.
  - destruct (Ascii.eqb a c) eqn:E.
    + intros [->|Hf]%elem_of_cons; [done|by apply IH].
    + destruct (PyStr.split c s) as [|g gs]; simpl.
      * intros ->%list_elem_of_singleton. simpl. by rewrite E.
      * intros [->|Hf]%elem_of_cons.
        -- simpl. rewrite E. simpl. apply IH. by left.
        -- apply IH. by right.
Qed.

Lemma join_split s : PyStr.join c (PyStr.split c s) = s.
Proof.
  induction s as [|a s IH]; simpl; [done|].
  destruct (Ascii.eqb a c) eqn:E.
  - apply Ascii.eqb_eq in E. subst a.
    pose proof (split_nonempty s).
    destruct (PyStr.split c s) as [|g gs]; [done|].
    simpl in *. by rewrite IH.
  - pose proof (split_nonempty s).
    destruct (PyStr.split c s) as [|g gs]; [done|].
    simpl in *. destruct gs; simpl in *; by rewrite <- IH.
Qed.

(** Characters other than the removed one survive in the fields. *)
Lemma contains_remove (d : ascii) s :
  PyStr.contains d (PyStr.remove d s) = false.
Proof.
  induction s as [|a s IH]; simpl; [done|].
  destruct (Ascii.eqb a d) eqn:E; simpl; [done|].
  by rewrite E.
Qed.

Lemma split_fields_keep_absent (d : ascii) s f :
  PyStr.contains d s = false →
  f ∈ PyStr.split c s → PyStr.contains d f = false.
Proof.
  revert f. induction s as [|a s IH]; simpl; intros f Hd.
  - by intros ->%list_elem_of_singleton.
  - apply orb_false_iff in Hd as [Had Hd].
    destruct (Ascii.eqb a c) eqn:E.
    + intros [->|Hf]%elem_of_cons; [done|by apply IH].
    + destruct (PyStr.split c s) as [|g gs]; simpl.
      * intros ->%list_elem_of_singleton. simpl. by rewrite Had.
      * intros [->|Hf]%elem_of_cons.
        -- simpl. rewrite Had. simpl. apply IH; [done|by left].
        -- apply IH; [done|by right].
Qed.

Lemma before_keep_absent (d : ascii) s :
  PyStr.contains d s = false → PyStr.contains d (PyStr.before c s) = false.
Proof.
  induction s as [|a s IH]; simpl; [done|].
  intros [Had Hd]%orb_false_iff.
  destruct (Ascii.eqb a c); simpl; [done|].
  rewrite Had. by apply IH.
Qed.

Lemma after_keep_absent (d : ascii) s :
  PyStr.contains d s = false → PyStr.contains d (PyStr.after c s) = false.
Proof.
  induction s as [|a s IH]; simpl; [done|].
  intros [Had Hd]%orb_false_iff.
  destruct (Ascii.eqb a c); [done|by apply IH].
Qed.

End SplitFacts.

Lemma before_id c s : PyStr.contains c s = false → PyStr.before c s = s.
Proof.
  induction s as [|a s IH]; simpl; [done|].
  intros [-> Hs]%orb_false_iff. by rewrite IH.
Qed.

Lemma split_second c s :
  PyStr.contains c s = true →
  PyStr.split c s !! 1%nat = Some (PyStr.before c (PyStr.after c s)).
Proof.
  intros Hc. rewrite split_unfold, Hc. simpl.
  rewrite split_unfold.
  destruct (PyStr.contains c (PyStr.after c s)) eqn:E; simpl; [done|].
  by rewrite before_id.
Qed.

(** ** [parse_config_flags] against its specification *)

Example parse_example :
  parse_config_flags "a = 1, b=2=3 ,junk,, a=x y"
  = Some (<["a" := "xy"]> (<["b" := "2"]> ∅)).
Proof. vm_compute. reflexivity. Qed.

Lemma parse_pair_total parsed fragment :
  parse_pair parsed fragment = Some (bind_fragment parsed fragment).
Proof.
  unfold parse_pair, bind_fragment.
  rewrite split_max_one.
  destruct (PyStr.contains "=" fragment) eqn:E; simpl; [|done].
  rewrite split_second by done.
  rewrite split_unfold, E. done.
Qed.

Lemma parse_pairs_total fragments : ∀ parsed,
  parse_pairs parsed fragments
  = Some (foldl bind_fragment parsed fragments).
Proof.
  induction fragments as [|f fs IH]; intros parsed; simpl; [done|].
  rewrite parse_pair_total. simpl. apply IH.
Qed.

Lemma foldl_bind_fragment fragments : ∀ parsed,
  foldl bind_fragment parsed fragments
  = list_to_map
      (reverse (flag_of_fragment <$>
                  filter (λ f, PyStr.contains "=" f = true) fragments))
    ∪ parsed.
Proof.
  induction fragments as [|f fs IH]; intros parsed; simpl.
  - by rewrite (left_id_L ∅ (∪)).
  - rewrite IH. unfold bind_fragment at 1.
    rewrite filter_cons.
    destruct (decide (PyStr.contains "=" f = true)) as [E|E].
    + rewrite E. rewrite fmap_cons, reverse_cons, list_to_map_app.
      simpl. rewrite <- (assoc_L (∪)).
      f_equal. rewrite insert_union_singleton_l.
      rewrite insert_empty. done.
    + apply not_true_is_false in E. by rewrite E.
Qed.

Lemma lookup_list_to_map_reverse_key (l : list (string * string)) k :
  is_Some ((list_to_map (reverse l) : gmap string string) !! k)
  ↔ k ∈ l.*1.
Proof.
  rewrite <- elem_of_dom, dom_list_to_map_L, elem_of_list_to_set.
  by rewrite fmap_reverse, elem_of_reverse.
Qed.

Lemma parse_config_flags_total config_flags :
  parse_config_flags config_flags
  = Some (parse_config_flags_spec config_flags).
Proof.
  unfold parse_config_flags, parse_config_flags_spec, kept_fragments.
  rewrite parse_pairs_total, foldl_bind_fragment.
  by rewrite (right_id_L ∅ (∪)).
Qed.

(** C10. [parse_config_flags] never fails and computes what the
    specification describes: the spaces are removed first (no fragment,
    key or value holds one), the text is cut at the commas, only the
    fragments with an equals sign are kept (the others bind nothing), and
    a kept fragment binds the text before its first equals sign to the
    text between its first and second equals sign, which holds no equals
    sign: whatever follows a second one is dropped. *)
Theorem parse_config_flags_correct (config_flags : string) :
  parse_config_flags config_flags
    = Some (parse_config_flags_spec config_flags)
  ∧ (∀ f, f ∈ PyStr.split "," (PyStr.remove " " config_flags) →
          PyStr.contains " " f = false ∧ PyStr.contains "," f = false)
  ∧ (∀ f, f ∈ kept_fragments config_flags ↔
          f ∈ PyStr.split "," (PyStr.remove " " config_flags)
          ∧ PyStr.contains "=" f = true)
  ∧ (∀ k v, parse_config_flags_spec config_flags !! k = Some v →
          (∃ f, f ∈ kept_fragments config_flags
                ∧ k = PyStr.before "=" f
                ∧ v = PyStr.before "=" (PyStr.after "=" f))
          ∧ PyStr.contains " " k = false
          ∧ PyStr.contains " " v = false
          ∧ PyStr.contains "=" v = false)
  ∧ (∀ f, f ∈ kept_fragments config_flags →
          is_Some (parse_config_flags_spec config_flags
                     !! PyStr.before "=" f)).
Proof.
  assert (Hsp : ∀ f, f ∈ PyStr.split "," (PyStr.remove " " config_flags) →
                     PyStr.contains " " f = false).
  { intros f Hf. eapply split_fields_keep_absent; [|exact Hf].
    apply contains_remove. }
  assert (Hkept : ∀ f, f ∈ kept_fragments config_flags ↔
          f ∈ PyStr.split "," (PyStr.remove " " config_flags)
          ∧ PyStr.contains "=" f = true).
  { intros f. unfold kept_fragments. rewrite list_elem_of_filter. tauto. }
  split_and!.
  - apply parse_config_flags_total.
  - intros f Hf. split; [by apply Hsp|].
    by eapply split_fields_no_sep.
  - exact Hkept.
  - intros k v Hkv. unfold parse_config_flags_spec in Hkv.
    apply elem_of_list_to_map_2 in Hkv.
    rewrite elem_of_reverse, list_elem_of_fmap in Hkv.
    destruct Hkv as (f & Heq & Hf). injection Heq as -> ->.
    pose proof (proj1 (Hkept f) Hf) as [Hin _].
    pose proof (Hsp f Hin) as Hnsp.
    split_and!.
    + by exists f.
    + by apply before_keep_absent.
    + by apply before_keep_absent, after_keep_absent.
    + apply before_no_sep.
  - intros f Hf. unfold parse_config_flags_spec.
    apply lookup_list_to_map_reverse_key.
    rewrite <- list_fmap_compose.
    apply list_elem_of_fmap. by exists f.
Qed.

(** ** The tracker *)

Lemma valid_datetimeb_spec t : valid_datetimeb t = true ↔ valid_datetime t.
Proof. unfold valid_datetimeb, valid_datetime. lia. Qed.

Lemma fromtimestamp_valid t :
  valid_datetime (t + epoch) → fromtimestamp t = Ok (t + epoch).
Proof.
  intros Hv. unfold fromtimestamp.
  apply valid_datetimeb_spec in Hv. by rewrite Hv.
Qed.

Lemma float_exact_valid dt : float_exact dt → valid_datetime dt.
Proof.
  unfold float_exact, float_range, valid_datetime, datetime_min,
    datetime_max, epoch.
  lia.
Qed.

Lemma fromtimestamp_timestamp dt :
  float_exact dt → fromtimestamp (timestamp dt) = Ok dt.
Proof.
  intros Hv%float_exact_valid. unfold timestamp.
  rewrite fromtimestamp_valid; [f_equal; lia|].
  by replace (dt - epoch + epoch) with dt by lia.
Qed.

Lemma boot_time_valid h bt : boot_time h = Ok bt → valid_datetime bt.
Proof.
  unfold boot_time.
  destruct (valid_datetimeb (now h - uptime h)) eqn:E; [|done].
  intros [= <-]. by apply valid_datetimeb_spec.
Qed.

Lemma wf_db_empty : wf_db ∅.
Proof. intros k t. by rewrite lookup_empty. Qed.

Lemma set_resource_db h name w :
  db (set_resource h name w).2
  = <[key_for name := timestamp (now h)]> (db w).
Proof. done. Qed.

(** [set_resource] keeps the store well formed: the clock shows a
    datetime that its timestamp gives back. *)
Lemma set_resource_wf h name w :
  float_exact (now h) → wf_db (db w) →
  wf_db (db (set_resource h name w).2).
Proof.
  intros Hnow%float_exact_valid Hwf k t. rewrite set_resource_db, lookup_insert.
  case_decide as E; [|by apply Hwf].
  intros [= <-]. unfold timestamp.
  by replace (now h - epoch + epoch) with (now h) by lia.
Qed.

Lemma last_changed_valid d name : wf_db d → valid_datetime (last_changed d name).
Proof.
  intros Hwf. unfold last_changed.
  destruct (d !! key_for name) as [t|] eqn:E; [by eapply Hwf|].
  unfold valid_datetime, datetime_min, datetime_max. lia.
Qed.

Lemma get_resource_changed_timestamp_run name w :
  wf_db (db w) →
  get_resource_changed_timestamp name w = (Ok (last_changed (db w) name), w).
Proof.
  intros Hwf. unfold get_resource_changed_timestamp, last_changed, bind, db_get.
  destruct (db w !! key_for name) as [t|] eqn:E; [|done].
  unfold lift. rewrite fromtimestamp_valid; [done|by eapply Hwf].
Qed.

(** A test that reads the world without changing it turns [filterM] into
    [filter]. *)
Lemma filterM_pure {A} (p : A → M bool) (q : A → bool) xs w :
  (∀ x, x ∈ xs → p x w = (Ok (q x), w)) →
  filterM p xs w = (Ok (List.filter q xs), w).
Proof.
  induction xs as [|x xs IH]; intros Hp; simpl; [done|].
  unfold bind. rewrite Hp by left.
  rewrite IH by (intros y Hy; apply Hp; by right).
  unfold ret. by destruct (q x).
Qed.

Lemma filter_sublist {A} (q : A → bool) xs : List.filter q xs `sublist_of` xs.
Proof.
  induction xs as [|x xs IH]; simpl; [constructor|].
  destruct (q x); by constructor.
Qed.

Lemma resources_changed_since_boot_run h names w bt :
  wf_db (db w) → boot_time h = Ok bt →
  resources_changed_since_boot h names w
  = (Ok (List.filter (λ name, bt <? last_changed (db w) name) names), w).
Proof.
  intros Hwf Hbt. unfold resources_changed_since_boot.
  unfold bind at 1. unfold lift. rewrite Hbt.
  unfold bind at 1.
  rewrite (filterM_pure _ (λ name, bt <? last_changed (db w) name)); [done|].
  intros name _. unfold bind.
  by rewrite get_resource_changed_timestamp_run.
Qed.

(** C1. On a well-formed store, with [boot_ts] the boot time computed by
    the call, [resources_changed_since_boot] returns, without touching the
    world, exactly the given names whose recorded last change is strictly
    later than [boot_ts], in the order they were given. *)
Theorem resources_changed_since_boot_correct h names w boot_ts :
  wf_db (db w) → boot_time h = Ok boot_ts →
  ∃ changed,
    resources_changed_since_boot h names w = (Ok changed, w)
    ∧ changed = List.filter (λ name, boot_ts <? last_changed (db w) name) names
    ∧ (∀ name, name ∈ changed ↔
                name ∈ names ∧ boot_ts < last_changed (db w) name)
    ∧ changed `sublist_of` names.
Proof.
  intros Hwf Hbt. eexists. split_and!.
  - by apply resources_changed_since_boot_run.
  - done.
  - intros name. rewrite !list_elem_of_In, filter_In.
    by rewrite Z.ltb_lt.
  - apply filter_sublist.
Qed.

Lemma resources_changed_since_boot_correct_witness :
  ∃ changed,
    resources_changed_since_boot h0 ["grub"; "kernel"; "systemd"]
      (set_resource h0 "kernel" w0).2
    = (Ok changed, (set_resource h0 "kernel" w0).2)
    ∧ changed = ["kernel"].
Proof.
  destruct (resources_changed_since_boot_correct h0
              ["grub"; "kernel"; "systemd"] (set_resource h0 "kernel" w0).2
              (now h0 - uptime h0)) as (changed & Hrun & Heq & _).
  - apply set_resource_wf; [vm_compute; split; reflexivity|apply wf_db_empty].
  - reflexivity.
  - exists changed. split; [exact Hrun|]. rewrite Heq. reflexivity.
Defined.

(** C2. On a well-formed store [get_resource_changed_timestamp] always
    returns: the datetime whose timestamp is the stored one when the
    resource has an entry, [datetime.min] when it has none; the world is
    left as it was. *)
Theorem get_resource_changed_timestamp_correct name w :
  wf_db (db w) →
  ∃ dt,
    get_resource_changed_timestamp name w = (Ok dt, w)
    ∧ valid_datetime dt
    ∧ (∀ t, db w !! key_for name = Some t → timestamp dt = t)
    ∧ (db w !! key_for name = None → dt = datetime_min).
Proof.
  intros Hwf. exists (last_changed (db w) name). split_and!.
  - by apply get_resource_changed_timestamp_run.
  - by apply last_changed_valid.
  - intros t E. unfold last_changed, timestamp. rewrite E. lia.
  - intros E. unfold last_changed. by rewrite E.
Qed.

Lemma get_resource_changed_timestamp_correct_witness :
  ∃ dt,
    get_resource_changed_timestamp "kernel" (set_resource h0 "kernel" w0).2
    = (Ok dt, (set_resource h0 "kernel" w0).2)
    ∧ timestamp dt = 1700000000000000.
Proof.
  destruct (get_resource_changed_timestamp_correct "kernel"
              (set_resource h0 "kernel" w0).2) as (dt & Hrun & _ & Hts & _).
  - apply set_resource_wf; [vm_compute; split; reflexivity|apply wf_db_empty].
  - exists dt. split; [exact Hrun|]. apply Hts. reflexivity.
Defined.

(** A resource never recorded counts as changed at the dawn of time, and
    no boot is earlier than that: on the empty store of a host booted an
    hour ago the unrecorded ["grub"] is not reported. *)
Lemma never_recorded_not_reported_example :
  ¬ (∀ h w names d boot_ts changed,
       db w !! key_for d = None →
       boot_time h = Ok boot_ts →
       d ∈ names →
       resources_changed_since_boot h names w = (Ok changed, w) →
       d ∈ changed).
Proof.
  intros Hclaim.
  specialize (Hclaim h0 w0 ["grub"] "grub" (now h0 - uptime h0) []).
  apply not_elem_of_nil in Hclaim; [done|done|done|by left|done].
Qed.

(** C3, amended. A resource never recorded is never reported as changed
    since boot, whatever the boot time: the call returns, and its result
    leaves the resource out. *)
Theorem never_recorded_never_reported h w names d boot_ts :
  wf_db (db w) →
  boot_time h = Ok boot_ts →
  db w !! key_for d = None →
  ∃ changed,
    resources_changed_since_boot h names w = (Ok changed, w)
    ∧ d ∉ changed.
Proof.
  intros Hwf Hbt Hnone. eexists. split.
  - by apply resources_changed_since_boot_run.
  - rewrite list_elem_of_In, filter_In. intros [_ Hlt].
    apply Z.ltb_lt in Hlt. unfold last_changed in Hlt. rewrite Hnone in Hlt.
    apply boot_time_valid in Hbt. unfold valid_datetime in Hbt. lia.
Qed.

Lemma never_recorded_never_reported_witness :
  ∃ changed,
    resources_changed_since_boot h0 ["grub"; "kernel"]
      (set_resource h0 "kernel" w0).2
    = (Ok changed, (set_resource h0 "kernel" w0).2)
    ∧ "grub" ∉ changed.
Proof.
  apply (never_recorded_never_reported h0 (set_resource h0 "kernel" w0).2
           ["grub"; "kernel"] "grub" (now h0 - uptime h0)).
  - apply set_resource_wf; [vm_compute; split; reflexivity|apply wf_db_empty].
  - reflexivity.
  - reflexivity.
Defined.

Lemma get_after_set d h w :
  float_exact (now h) →
  get_resource_changed_timestamp d (set_resource h d w).2
  = (Ok (now h), (set_resource h d w).2).
Proof.
  intros Hnow. unfold get_resource_changed_timestamp, bind, db_get.
  rewrite set_resource_db, lookup_insert_eq.
  unfold lift. by rewrite fromtimestamp_timestamp.
Qed.

(** Asking about a single resource whose last change can be read. *)
Lemma changed_singleton h d w boot_ts ts :
  boot_time h = Ok boot_ts →
  get_resource_changed_timestamp d w = (Ok ts, w) →
  resources_changed_since_boot h [d] w
  = (Ok (if boot_ts <? ts then [d] else []), w).
Proof.
  intros Hbt Hget. unfold resources_changed_since_boot.
  unfold bind at 1. unfold lift. rewrite Hbt.
  unfold bind at 1.
  rewrite (filterM_pure _ (λ _, boot_ts <? ts)).
  - simpl. by destruct (boot_ts <? ts).
  - intros x ->%list_elem_of_singleton.
    unfold bind. by rewrite Hget.
Qed.

(** C4. Recording a change of [d] on a host whose clock shows [now h1],
    then asking (on the host as it is by then, [h2]) whether [d] changed
    since boot, answers [[d]], provided the boot instant is strictly
    earlier than the clock was at the record.  The clock at the record is
    one whose float timestamp is exact ([float_exact]): further from the
    epoch the stored float can fall a microsecond short of the clock. *)
Theorem set_resource_then_changed d h1 h2 w boot_ts :
  float_exact (now h1) →
  boot_time h2 = Ok boot_ts →
  boot_ts < now h1 →
  resources_changed_since_boot h2 [d] (set_resource h1 d w).2
  = (Ok [d], (set_resource h1 d w).2).
Proof.
  intros Hnow Hbt Hlt.
  rewrite (changed_singleton h2 d _ boot_ts (now h1)).
  - apply Z.ltb_lt in Hlt. by rewrite Hlt.
  - exact Hbt.
  - by apply get_after_set.
Qed.

Lemma set_resource_then_changed_witness :
  resources_changed_since_boot h0 ["grub"] (set_resource h0 "grub" w0).2
  = (Ok ["grub"], (set_resource h0 "grub" w0).2).
Proof.
  apply (set_resource_then_changed "grub" h0 h0 w0 (now h0 - uptime h0)).
  - vm_compute; split; reflexivity.
  - reflexivity.
  - vm_compute; reflexivity.
Defined.

(** Time passing does not move the boot instant. *)
Lemma boot_time_later elapsed h : boot_time (later elapsed h) = boot_time h.
Proof.
  unfold boot_time, later. simpl.
  by replace (now h + elapsed - (uptime h + elapsed)) with (now h - uptime h)
    by lia.
Qed.

(** The same with the passing of time made explicit: a record made while
    the uptime is positive is reported at any later moment of that boot. *)
Lemma changed_after_set_later d h elapsed w :
  float_exact (now h) → valid_datetime (now h - uptime h) →
  0 < uptime h →
  resources_changed_since_boot (later elapsed h) [d] (set_resource h d w).2
  = (Ok [d], (set_resource h d w).2).
Proof.
  intros Hnow Hboot Hup.
  rewrite (changed_singleton _ d _ (now h - uptime h) (now h)).
  - replace (now h - uptime h <? now h) with true; [done|].
    symmetry. apply Z.ltb_lt. lia.
  - rewrite boot_time_later. unfold boot_time.
    apply valid_datetimeb_spec in Hboot. by rewrite Hboot.
  - by apply get_after_set.
Qed.

(** ** The procedures of the helper *)

Lemma contexts_rendered_to_app target tr1 tr2 :
  contexts_rendered_to target (tr1 ++ tr2)
  = (contexts_rendered_to target tr1 ++ contexts_rendered_to target tr2)%list.
Proof. apply omap_app. Qed.

Lemma truthy_spec s : truthy s = true ↔ s ≠ "".
Proof.
  unfold truthy. rewrite negb_true_iff.
  destruct (String.eqb_spec s ""); split; congruence.
Qed.

Lemma lookup_assign_if_ne {V} (cond : bool) key key' (value : V) d :
  key ≠ key' → assign_if cond key value d !! key' = d !! key'.
Proof.
  intros Hne. unfold assign_if. destruct cond; [|done].
  by rewrite lookup_insert_ne.
Qed.

Lemma lookup_assign_if_eq {V} (cond : bool) key (value : V) d :
  assign_if cond key value d !! key = if cond then Some value else d !! key.
Proof.
  unfold assign_if. destruct cond; [|done]. by rewrite lookup_insert_eq.
Qed.

(** What [_update_grub] does: nothing unless the option is set outside a
    container; then it runs the command, and a non-zero exit status
    raises before the log line. *)
Lemma _update_grub_run cfg h w :
  _update_grub cfg h w =
    if update_grub cfg && negb (is_container h) then
      if exit_status h update_grub_command =? 0 then
        (Ok tt,
         logged w [CheckCall update_grub_command;
                   Log "Running update-grub to apply grub conf updates" []
                       DEBUG])
      else
        (Raise (CalledProcessError update_grub_command
                  (exit_status h update_grub_command)),
         logged w [CheckCall update_grub_command])
    else (Ok tt, w).
Proof.
  unfold _update_grub, check_call, log, emit, bind, ret, raise, logged.
  destruct (update_grub cfg && negb (is_container h)); [|done].
  simpl. fold update_grub_command.
  destruct (exit_status h update_grub_command =? 0); simpl; [|done].
  by rewrite <- app_assoc.
Qed.

Lemma _update_grub_renders_nothing cfg h w target :
  contexts_rendered_to target (trace (_update_grub cfg h w).2)
  = contexts_rendered_to target (trace w).
Proof.
  rewrite _update_grub_run.
  destruct (update_grub cfg && negb (is_container h)); [|done].
  destruct (exit_status h update_grub_command =? 0); simpl;
    rewrite contexts_rendered_to_app; simpl; by rewrite app_nil_r.
Qed.

(** [update_grub_file] up to its last step: the context rendered is some
    [base] without pin, to which the pin is added when a kernel version is
    configured that is not the running one. *)
Lemma update_grub_file_run cfg h w :
  ∃ base : gmap string ctxval,
    base !! "grub_default" = None
    ∧ update_grub_file cfg h w =
        _update_grub cfg h
          {| db := <[key_for GRUB_CONF := timestamp (now h)]> (db w);
             files := {[GRUB_CONF]} ∪ files w;
             trace :=
               trace w
               ++ (if truthy (kernel_version cfg)
                      && String.eqb (kernel_version cfg) (running_kernel h)
                   then [Log "Already running kernel: {}"
                             [AStr (kernel_version cfg)] DEBUG]
                   else [])
               ++ [Render GRUB_CONF_TMPL GRUB_CONF
                     (assign_if
                        (truthy (kernel_version cfg)
                         && negb (String.eqb (kernel_version cfg)
                                    (running_kernel h)))
                        "grub_default"
                        (VStr (GRUB_DEFAULT (kernel_version cfg))) base);
                   KvSet (key_for GRUB_CONF) (timestamp (now h));
                   Log "grub configuration updated" [] None] |}.
Proof.
  unfold update_grub_file. cbv zeta.
  unfold grub_config_flags. rewrite parse_config_flags_total.
  unfold of_option. unfold bind at 1. unfold ret at 1.
  set (base := <["grub_config_flags" := _]> _).
  exists base. split.
  - subst base. rewrite lookup_insert_ne by done.
    rewrite !lookup_assign_if_ne by done. apply lookup_empty.
  - unfold _is_kernel_already_running, running_kernel.
    destruct (truthy (kernel_version cfg)) eqn:Ekv;
      [destruct (String.eqb (kernel_version cfg) (release h)) eqn:Erun|];
      unfold bind, ret, log, emit, _render_boot_resource, render,
        set_resource, db_set, bind; simpl;
      by rewrite <- !app_assoc.
Qed.

(** C5. The context [update_grub_file] hands to the renderer for the grub
    file holds the pin [grub_default], naming the configured kernel
    version, exactly when a version is configured and differs from the
    running kernel release; it holds no pin when no version is configured
    or when the running kernel is the configured one. *)
Theorem update_grub_file_pin cfg h w :
  ∃ context,
    contexts_rendered_to GRUB_CONF (trace (update_grub_file cfg h w).2)
    = (contexts_rendered_to GRUB_CONF (trace w) ++ [context])%list
    ∧ (context !! "grub_default"
         = Some (VStr (GRUB_DEFAULT (kernel_version cfg)))
       ↔ kernel_version cfg ≠ "" ∧ kernel_version cfg ≠ running_kernel h)
    ∧ (context !! "grub_default" = None
       ↔ kernel_version cfg = "" ∨ kernel_version cfg = running_kernel h).
Proof.
  destruct (update_grub_file_run cfg h w) as (base & Hbase & ->).
  eexists. split.
  - rewrite _update_grub_renders_nothing. simpl.
    rewrite !contexts_rendered_to_app.
    destruct (truthy (kernel_version cfg)
              && String.eqb (kernel_version cfg) (running_kernel h));
      reflexivity.
  - rewrite lookup_assign_if_eq, Hbase.
    assert (Hkv : if truthy (kernel_version cfg)
                  then kernel_version cfg ≠ "" else kernel_version cfg = "").
    { destruct (truthy (kernel_version cfg)) eqn:E; [by apply truthy_spec|].
      destruct (decide (kernel_version cfg = "")) as [|Hne]; [done|].
      apply truthy_spec in Hne. congruence. }
    assert (Hrun : if String.eqb (kernel_version cfg) (running_kernel h)
                   then kernel_version cfg = running_kernel h
                   else kernel_version cfg ≠ running_kernel h).
    { by destruct (String.eqb_spec (kernel_version cfg) (running_kernel h)). }
    destruct (truthy (kernel_version cfg)),
      (String.eqb (kernel_version cfg) (running_kernel h));
      simpl; intuition congruence.
Qed.

Lemma string_eqb_case (a b : string) :
  if String.eqb a b then a = b else a ≠ b.
Proof. by destruct (String.eqb_spec a b). Qed.

Lemma truthy_case s : if truthy s then s ≠ "" else s = "".
Proof.
  unfold truthy. pose proof (string_eqb_case s "") as H.
  by destruct (String.eqb s "").
Qed.

Lemma py_in_spec x xs : py_in x xs = true ↔ x ∈ xs.
Proof.
  unfold py_in. rewrite existsb_exists. split.
  - intros (y & Hy & ->%String.eqb_eq). by apply list_elem_of_In.
  - intros Hx. exists x. split; [by apply list_elem_of_In|].
    apply String.eqb_refl.
Qed.

(** C6. [install_configured_kernel] installs nothing and records nothing
    (it only writes log lines) when no kernel version is configured or
    when the configured one is the running release; otherwise it updates
    the package index, installs exactly [linux-image-<version>] and
    [linux-modules-extra-<version>], and after that records the kernel
    resource as changed at the current time. *)
Theorem install_configured_kernel_correct cfg h w :
  (kernel_version cfg = "" ∨ kernel_version cfg = running_kernel h →
   ∃ logs,
     install_configured_kernel cfg h w = (Ok tt, logged w logs)
     ∧ Forall is_log logs)
  ∧ (kernel_version cfg ≠ "" ∧ kernel_version cfg ≠ running_kernel h →
     install_configured_kernel cfg h w =
       (Ok tt,
        {| db := <[key_for KERNEL := timestamp (now h)]> (db w);
           files := files w;
           trace :=
             trace w ++
             [AptUpdate;
              AptInstall ["linux-image-" ++ kernel_version cfg;
                          "linux-modules-extra-" ++ kernel_version cfg];
              Log "installing: {}"
                  [AStrs ["linux-image-" ++ kernel_version cfg;
                          "linux-modules-extra-" ++ kernel_version cfg]]
                  None;
              KvSet (key_for KERNEL) (timestamp (now h))] |})).
Proof.
  pose proof (truthy_case (kernel_version cfg)) as Hkv.
  pose proof (string_eqb_case (kernel_version cfg) (running_kernel h)) as Hrun.
  unfold install_configured_kernel, _is_kernel_already_running.
  split.
  - intros Hskip.
    destruct (truthy (kernel_version cfg));
      [destruct (String.eqb (kernel_version cfg) (running_kernel h))|].
    + eexists. split.
      * unfold bind, ret, log, emit, logged. simpl.
        by rewrite <- app_assoc.
      * by repeat constructor.
    + by destruct Hskip.
    + eexists. split; [reflexivity|by repeat constructor].
  - intros [Hne Hdiff].
    destruct (truthy (kernel_version cfg)); [|done].
    destruct (String.eqb (kernel_version cfg) (running_kernel h)); [done|].
    unfold bind, ret, log, emit, set_resource, db_set. simpl.
    by rewrite <- !app_assoc.
Qed.

(** C7. With a governor outside the three admitted values [update_cpufreq]
    returns at once: the world, log of calls included, is unchanged. *)
Theorem update_cpufreq_invalid_governor cfg h w :
  governor cfg ∉ [""; "powersave"; "performance"] →
  update_cpufreq cfg h w = (Ok tt, w).
Proof.
  intros Hbad. unfold update_cpufreq.
  destruct (py_in (governor cfg) [""; "performance"; "powersave"]) eqn:E;
    [|done].
  apply py_in_spec in E. exfalso. apply Hbad.
  rewrite !elem_of_cons in E. rewrite !elem_of_cons. tauto.
Qed.

Lemma update_cpufreq_invalid_governor_witness :
  update_cpufreq (with_governor "eco" cfg0) h0 w0 = (Ok tt, w0).
Proof.
  apply (update_cpufreq_invalid_governor (with_governor "eco" cfg0) h0 w0).
  simpl. rewrite !elem_of_cons, elem_of_nil.
  intros [E|[E|[E|[]]]]; discriminate E.
Defined.


Lemma path_exists_case path w :
  if bool_decide (path ∈ files w) then path ∈ files w else path ∉ files w.
Proof. by case_bool_decide. Qed.

(** Where the grub file exists, removing it leaves an entry for it in the
    store of the tracker: with [update-grub] switched off and an empty
    store to begin with, the store is not what it was. *)
Lemma remove_grub_configuration_records_example :
  ¬ (∀ cfg h w,
       GRUB_CONF ∈ files w →
       (GRUB_CONF ∉ files (remove_grub_configuration cfg h w).2)
       ∧ db (remove_grub_configuration cfg h w).2 = db w).
Proof.
  intros Hclaim.
  destruct (Hclaim cfg0 h0
              {| db := ∅; files := {[GRUB_CONF]}; trace := [] |})
    as [_ Hdb].
  - simpl. by apply elem_of_singleton.
  - apply (f_equal (λ d : gmap string Z, d !! key_for GRUB_CONF)) in Hdb.
    vm_compute in Hdb. discriminate Hdb.
Qed.

(** C8, amended. When the grub file does not exist
    [remove_grub_configuration] does nothing at all.  When it exists the
    file is deleted; [update-grub] is run exactly when the option is set
    and the host is no container; and unless that command fails the grub
    file is then recorded as changed at the current time.  A failing
    [update-grub] raises, after the deletion and before any record. *)
Theorem remove_grub_configuration_correct cfg h w :
  (GRUB_CONF ∉ files w → remove_grub_configuration cfg h w = (Ok tt, w))
  ∧ (GRUB_CONF ∈ files w →
     remove_grub_configuration cfg h w =
       let deleted :=
         [Remove GRUB_CONF;
          Log "deleted grub configuration at " [AStr GRUB_CONF] DEBUG] in
       let record := KvSet (key_for GRUB_CONF) (timestamp (now h)) in
       if update_grub cfg && negb (is_container h) then
         if exit_status h update_grub_command =? 0 then
           (Ok tt,
            {| db := <[key_for GRUB_CONF := timestamp (now h)]> (db w);
               files := files w ∖ {[GRUB_CONF]};
               trace :=
                 trace w ++ deleted ++
                 [CheckCall update_grub_command;
                  Log "Running update-grub to apply grub conf updates" []
                      DEBUG;
                  record] |})
         else
           (Raise (CalledProcessError update_grub_command
                     (exit_status h update_grub_command)),
            {| db := db w;
               files := files w ∖ {[GRUB_CONF]};
               trace := trace w ++ deleted ++ [CheckCall update_grub_command]
            |})
       else
         (Ok tt,
          {| db := <[key_for GRUB_CONF := timestamp (now h)]> (db w);
             files := files w ∖ {[GRUB_CONF]};
             trace := trace w ++ deleted ++ [record] |})).
Proof.
  pose proof (path_exists_case GRUB_CONF w) as Hex.
  unfold remove_grub_configuration, bind, path_exists, os_remove, log, emit.
  cbv zeta.
  destruct (bool_decide (GRUB_CONF ∈ files w)) eqn:E;
    (split; intros Hfile; [done|]); try done.
  simpl. rewrite E, _update_grub_run.
  destruct (update_grub cfg && negb (is_container h));
    [destruct (exit_status h update_grub_command =? 0)|];
    unfold logged, set_resource, db_set; simpl;
    by rewrite <- !app_assoc.
Qed.

(** C9. On xenial outside a container, with an admitted governor,
    [update_cpufreq] renders, records, and then runs one [update-rc.d]
    command on the ondemand script: [remove] when a governor is set,
    whichever it is, and [defaults] when it is empty.  The service is
    restarted afterwards unless that command failed. *)
Theorem update_cpufreq_ondemand_toggle cfg h w :
  distrib_codename h = "xenial" →
  is_container h = false →
  governor cfg ∈ [""; "powersave"; "performance"] →
  let command :=
    ondemand (if decide (governor cfg = "") then "defaults" else "remove") in
  trace (update_cpufreq cfg h w).2 =
    (trace w ++
     [Render CPUFREQUTILS_TMPL CPUFREQUTILS
        {[ "governor" := VStr (governor cfg) ]};
      KvSet (key_for CPUFREQUTILS) (timestamp (now h));
      Log ("disabling the ondemand initscript for lp#1822774"
           ++ " and lp#740127 if a governor is specified")%string [] DEBUG;
      CheckCall command] ++
     (if exit_status h command =? 0
      then [ServiceRestart "cpufrequtils"] else []))%list.
Proof.
  intros Hcode Hcont Hgov command.
  pose proof (truthy_case (governor cfg)) as Hset.
  unfold update_cpufreq.
  replace (py_in (governor cfg) [""; "performance"; "powersave"]) with true.
  2:{ symmetry. apply py_in_spec.
      rewrite !elem_of_cons in Hgov. rewrite !elem_of_cons. tauto. }
  rewrite Hcode, Hcont. simpl negb. cbv iota.
  subst command.
  destruct (truthy (governor cfg)); destruct (decide (governor cfg = ""));
    try done;
    unfold bind, _render_boot_resource, render, set_resource, db_set, bind,
      log, check_call, emit, bind, ret, raise; simpl;
    match goal with
    | |- context [exit_status h ?c =? 0] =>
        destruct (exit_status h c =? 0)
    end; simpl; by rewrite <- !app_assoc.
Qed.

Lemma update_cpufreq_ondemand_toggle_witness :
  trace (update_cpufreq cfg0 h0 w0).2 =
    [Render CPUFREQUTILS_TMPL CPUFREQUTILS {[ "governor" := VStr "performance" ]};
     KvSet (key_for CPUFREQUTILS) 1700000000000000;
     Log ("disabling the ondemand initscript for lp#1822774"
          ++ " and lp#740127 if a governor is specified")%string [] DEBUG;
     CheckCall (ondemand "remove");
     ServiceRestart "cpufrequtils"].
Proof.
  rewrite (update_cpufreq_ondemand_toggle cfg0 h0 w0).
  - reflexivity.
  - reflexivity.
  - reflexivity.
  - simpl. rewrite !elem_of_cons. tauto.
Defined.

(** ** The store stays well formed *)

(** Only [set_resource] writes to the store, and it writes the clock; so
    every procedure of the helper keeps the store well formed, the clock
    being one whose float timestamp is exact. *)

Section Preserves.

Variable cfg : config.
Variable h : host.
Hypothesis clock : float_exact (now h).

Lemma preserves_bind {A B} (m : M A) (k : A → M B) :
  preserves m → (∀ a, preserves (k a)) → preserves (bind m k).
Proof.
  intros Hm Hk w Hw. unfold bind.
  specialize (Hm w Hw).
  destruct (m w) as [[a|e] w']; simpl in *; [by apply Hk|done].
Qed.

Lemma preserves_frame {A} (m : M A) :
  (∀ w, db (m w).2 = db w) → preserves m.
Proof. intros Hm w Hw. by rewrite Hm. Qed.

Lemma preserves_ret {A} (a : A) : preserves (ret a).
Proof. by apply preserves_frame. Qed.

Lemma preserves_raise {A} e : preserves (raise (A:=A) e).
Proof. by apply preserves_frame. Qed.

Lemma preserves_emit e : preserves (emit e).
Proof. by apply preserves_frame. Qed.

Lemma preserves_render s t c : preserves (render s t c).
Proof. by apply preserves_frame. Qed.

Lemma preserves_of_option {A} (o : option A) : preserves (of_option o).
Proof. destruct o; by apply preserves_frame. Qed.

Lemma preserves_path_exists p : preserves (path_exists p).
Proof. by apply preserves_frame. Qed.

Lemma preserves_os_remove p : preserves (os_remove p).
Proof.
  apply preserves_frame. intros w. unfold os_remove.
  by destruct (bool_decide (p ∈ files w)).
Qed.

Lemma preserves_set_resource name : preserves (set_resource h name).
Proof. intros w Hw. by apply set_resource_wf. Qed.

Lemma preserves_check_call argv : preserves (check_call h argv).
Proof.
  apply preserves_bind; [apply preserves_emit|]. intros _.
  destruct (exit_status h argv =? 0);
    [apply preserves_ret|apply preserves_raise].
Qed.

Ltac preserve :=
  repeat first
    [ apply preserves_ret
    | apply preserves_raise
    | apply preserves_emit
    | apply preserves_render
    | apply preserves_of_option
    | apply preserves_path_exists
    | apply preserves_os_remove
    | apply preserves_set_resource
    | apply preserves_check_call
    | apply preserves_bind
    | match goal with
      | |- preserves (if ?b then _ else _) => destruct b
      | |- ∀ _, _ => intro
      end ].

Lemma preserves_update_grub_file : preserves (update_grub_file cfg h).
Proof.
  unfold update_grub_file, grub_config_flags, _is_kernel_already_running,
    _render_boot_resource, _update_grub, log.
  cbv zeta. preserve.
Qed.

Lemma preserves_update_systemd_system_file :
  preserves (update_systemd_system_file cfg h).
Proof.
  unfold update_systemd_system_file, systemd_config_flags,
    _render_boot_resource, log.
  cbv zeta. preserve.
Qed.

Lemma preserves_install_configured_kernel :
  preserves (install_configured_kernel cfg h).
Proof.
  unfold install_configured_kernel, _is_kernel_already_running, log.
  cbv zeta. preserve.
Qed.

Lemma preserves_update_cpufreq : preserves (update_cpufreq cfg h).
Proof.
  unfold update_cpufreq, _render_boot_resource, log.
  cbv zeta. preserve.
Qed.

Lemma preserves_remove_grub_configuration :
  preserves (remove_grub_configuration cfg h).
Proof.
  unfold remove_grub_configuration, _update_grub, log.
  cbv zeta. preserve.
Qed.

End Preserves.

(** ** Scenarios of the specification *)

(** The grub pin lifecycle: while 5.15.0-50 runs and 5.15.0-99 is
    configured the context names 5.15.0-99 as the default entry; once
    5.15.0-99 runs, the same procedure renders no default entry. *)
Example grub_pin_before_reboot :
  (λ context, context !! "grub_default")
    <$> contexts_rendered_to GRUB_CONF (trace (update_grub_file cfg0 h0 w0).2)
  = [Some (VStr
       "Advanced options for Ubuntu>Ubuntu, with Linux 5.15.0-99-generic")].
Proof. vm_compute. reflexivity. Qed.

Example grub_pin_after_reboot :
  (λ context, context !! "grub_default")
    <$> contexts_rendered_to GRUB_CONF
          (trace (update_grub_file cfg0 (rebooted h0 "5.15.0-99-generic")
                    w0).2)
  = [None].
Proof. vm_compute. reflexivity. Qed.

(** After the reboot nothing recorded before it counts as changed. *)
Example changed_resets_at_reboot :
  (resources_changed_since_boot h0 [GRUB_CONF; KERNEL]
     (update_grub_file cfg0 h0 w0).2).1 = Ok [GRUB_CONF]
  ∧ (resources_changed_since_boot (rebooted h0 "5.15.0-99-generic")
       [GRUB_CONF; KERNEL]
       (update_grub_file cfg0 h0 w0).2).1 = Ok [].
Proof. split; vm_compute; reflexivity. Qed.

(** The legacy toggle: clearing the governor re-enables ondemand. *)
Example ondemand_reenabled :
  CheckCall (ondemand "defaults")
    ∈ trace (update_cpufreq (with_governor "" cfg0) h0 w0).2.
Proof. vm_compute. do 3 right. left. Qed.

(** Removing a grub file that is there deletes it and records it. *)
Example remove_grub_records :
  let w := (update_grub_file cfg0 h0 w0).2 in
  let w' := (remove_grub_configuration cfg0 (later 1000000 h0) w).2 in
  (path_exists GRUB_CONF w).1 = Ok true
  ∧ (path_exists GRUB_CONF w').1 = Ok false
  ∧ db w' !! key_for GRUB_CONF = Some 1700000001000000.
Proof. split_and!; vm_compute; reflexivity. Qed.

(** * Further properties *)

(** ** The flag parser *)

Lemma append_cons a (s t : string) : String a s ++ t = String a (s ++ t).
Proof. reflexivity. Qed.

Lemma remove_app c (s t : string) :
  PyStr.remove c (s ++ t) = PyStr.remove c s ++ PyStr.remove c t.
Proof.
  induction s as [|a s IH]; [done|].
  rewrite append_cons. simpl.
  destruct (Ascii.eqb a c); [done|]. by rewrite append_cons, IH.
Qed.

Lemma remove_id c s : PyStr.contains c s = false → PyStr.remove c s = s.
Proof.
  induction s as [|a s IH]; simpl; [done|].
  intros [-> Hs]%orb_false_iff. by rewrite IH.
Qed.

Lemma remove_keep_absent c d s :
  PyStr.contains d s = false → PyStr.contains d (PyStr.remove c s) = false.
Proof.
  induction s as [|a s IH]; simpl; [done|].
  intros [Had Hs]%orb_false_iff.
  destruct (Ascii.eqb a c); simpl; [by apply IH|].
  rewrite Had. by apply IH.
Qed.

Lemma contains_app c (s t : string) :
  PyStr.contains c (s ++ t) = PyStr.contains c s || PyStr.contains c t.
Proof.
  induction s as [|a s IH]; [done|].
  rewrite append_cons. simpl. rewrite IH. by rewrite orb_assoc.
Qed.

Lemma push_app a fs gs : fs ≠ [] → PyStr.push a (fs ++ gs)%list = (PyStr.push a fs ++ gs)%list.
Proof. by destruct fs. Qed.

(** Cutting at a separator cuts the text on either side of it. *)
Lemma split_app_sep c (s t : string) :
  PyStr.split c (s ++ String c t)
  = (PyStr.split c s ++ PyStr.split c t)%list.
Proof.
  induction s as [|a s IH].
  - simpl. by rewrite Ascii.eqb_refl.
  - rewrite append_cons. simpl.
    destruct (Ascii.eqb a c); rewrite IH; [done|].
    apply push_app, split_nonempty.
Qed.

Lemma before_app_sep c (s t : string) :
  PyStr.contains c s = false → PyStr.before c (s ++ String c t) = s.
Proof.
  induction s as [|a s IH]; simpl.
  - by rewrite Ascii.eqb_refl.
  - intros [-> Hs]%orb_false_iff. by rewrite IH.
Qed.

Lemma after_app_sep c (s t : string) :
  PyStr.contains c s = false → PyStr.after c (s ++ String c t) = t.
Proof.
  induction s as [|a s IH]; simpl.
  - by rewrite Ascii.eqb_refl.
  - intros [-> Hs]%orb_false_iff. by rewrite IH.
Qed.

Lemma foldl_bind_fragment_app fs gs parsed :
  foldl bind_fragment parsed (fs ++ gs)%list
  = foldl bind_fragment (foldl bind_fragment parsed fs) gs.
Proof. apply foldl_app. Qed.

Lemma parse_config_flags_comma (a b : string) :
  parse_config_flags (a ++ String "," b)
  = Some (parse_config_flags_spec b ∪ parse_config_flags_spec a).
Proof.
  unfold parse_config_flags.
  rewrite remove_app. simpl PyStr.remove.
  rewrite split_app_sep, parse_pairs_total, foldl_bind_fragment_app.
  rewrite (foldl_bind_fragment (PyStr.split "," (PyStr.remove " " b))).
  rewrite (foldl_bind_fragment (PyStr.split "," (PyStr.remove " " a))).
  by rewrite (right_id_L ∅ (∪)).
Qed.

(** X1. Flags given in two pieces joined by a comma parse to the flags of
    the second piece laid over the flags of the first: on a key both
    pieces bind, the later piece wins. *)
Theorem parse_config_flags_concat (a b : string) :
  ∃ flags_a flags_b,
    parse_config_flags a = Some flags_a
    ∧ parse_config_flags b = Some flags_b
    ∧ parse_config_flags (a ++ "," ++ b) = Some (flags_b ∪ flags_a)
    ∧ ∀ k, (flags_b ∪ flags_a) !! k
           = match flags_b !! k with
             | Some v => Some v
             | None => flags_a !! k
             end.
Proof.
  exists (parse_config_flags_spec a), (parse_config_flags_spec b).
  split_and!; try apply parse_config_flags_total.
  - apply parse_config_flags_comma.
  - intros k. rewrite lookup_union.
    destruct (parse_config_flags_spec b !! k),
      (parse_config_flags_spec a !! k); done.
Qed.

(** X2. A space put anywhere in the text of the option changes nothing in
    what is parsed. *)
Theorem parse_config_flags_space (a b : string) :
  parse_config_flags (a ++ " " ++ b) = parse_config_flags (a ++ b).
Proof.
  unfold parse_config_flags.
  by rewrite !remove_app.
Qed.

Lemma parse_flag_text k v :
  plain k → plain v →
  parse_config_flags_spec (flag_text (k, v)) = {[k := v]}.
Proof.
  intros (Hks & Hkc & Hke) (Hvs & Hvc & Hve).
  unfold parse_config_flags_spec, kept_fragments, flag_text. simpl.
  rewrite remove_id.
  2:{ rewrite contains_app. simpl. by rewrite Hks, Hvs. }
  rewrite split_unfold.
  replace (PyStr.contains "," (k ++ String "=" v)) with false.
  2:{ rewrite contains_app. simpl. by rewrite Hkc, Hvc. }
  rewrite filter_cons, decide_True.
  2:{ rewrite contains_app. simpl. by rewrite orb_true_r. }
  rewrite filter_nil. simpl.
  unfold flag_of_fragment.
  rewrite before_app_sep, after_app_sep, before_id by done.
  simpl. by rewrite insert_empty.
Qed.

Lemma flags_text_cons flag flags :
  flags ≠ [] →
  flags_text (flag :: flags) = flag_text flag ++ String "," (flags_text flags).
Proof. unfold flags_text. by destruct flags. Qed.

Lemma parse_flags_text flags :
  Forall (λ flag, plain flag.1 ∧ plain flag.2) flags →
  parse_config_flags_spec (flags_text flags) = list_to_map (reverse flags).
Proof.
  induction 1 as [|[k v] flags [Hk Hv] Hall IH]; [done|].
  destruct flags as [|flag flags].
  - change (flags_text [(k, v)]) with (flag_text (k, v)).
    rewrite parse_flag_text by done.
    by rewrite reverse_singleton.
  - rewrite flags_text_cons by done.
    pose proof (parse_config_flags_comma (flag_text (k, v))
                  (flags_text (flag :: flags))) as Hcomma.
    rewrite parse_config_flags_total in Hcomma.
    injection Hcomma as ->.
    rewrite IH, parse_flag_text by done.
    rewrite (reverse_cons _ (k, v)), list_to_map_app. simpl.
    by rewrite insert_empty.
Qed.

(** X3. Writing flags out as [key=value] pairs joined by commas and
    parsing the text gives the flags back, a later pair overriding an
    earlier one with the same key, as long as no key or value holds a
    space, a comma or an equals sign. *)
Theorem parse_config_flags_roundtrip (flags : list (string * string)) :
  Forall (λ flag, plain flag.1 ∧ plain flag.2) flags →
  parse_config_flags (flags_text flags) = Some (list_to_map (reverse flags)).
Proof.
  intros Hplain.
  rewrite parse_config_flags_total. f_equal.
  by apply parse_flags_text.
Qed.

Lemma parse_config_flags_roundtrip_witness :
  flags_text [("GRUB_TIMEOUT", "10"); ("quiet", ""); ("GRUB_TIMEOUT", "5")]
  = "GRUB_TIMEOUT=10,quiet=,GRUB_TIMEOUT=5"
  ∧ parse_config_flags
      (flags_text
         [("GRUB_TIMEOUT", "10"); ("quiet", ""); ("GRUB_TIMEOUT", "5")])
    = Some (list_to_map
              (reverse [("GRUB_TIMEOUT", "10"); ("quiet", "");
                        ("GRUB_TIMEOUT", "5")])).
Proof.
  split; [reflexivity|].
  apply (parse_config_flags_roundtrip
           [("GRUB_TIMEOUT", "10"); ("quiet", ""); ("GRUB_TIMEOUT", "5")]).
  repeat constructor.
Defined.

Lemma kept_none (fragments : list string) :
  (∀ f, f ∈ fragments → PyStr.contains "=" f = false) →
  filter (λ f, PyStr.contains "=" f = true) fragments = [].
Proof.
  induction fragments as [|f fs IH]; intros Hno; [done|].
  rewrite filter_cons, decide_False.
  - apply IH. intros g Hg. apply Hno. by right.
  - rewrite Hno by left. done.
Qed.

(** X4. A text without any equals sign, the empty text included, parses
    to no flag at all. *)
Theorem parse_config_flags_no_equals (config_flags : string) :
  PyStr.contains "=" config_flags = false →
  parse_config_flags config_flags = Some ∅.
Proof.
  intros Hno. rewrite parse_config_flags_total. f_equal.
  unfold parse_config_flags_spec, kept_fragments.
  rewrite kept_none; [done|].
  intros f Hf.
  eapply split_fields_keep_absent; [|exact Hf].
  by apply remove_keep_absent.
Qed.

Lemma parse_config_flags_no_equals_witness :
  parse_config_flags "quiet, splash ,," = Some ∅.
Proof.
  apply (parse_config_flags_no_equals "quiet, splash ,,").
  reflexivity.
Defined.

(** ** The tracker, continued *)

Lemma append_inj_l (p a b : string) : p ++ a = p ++ b → a = b.
Proof.
  induction p as [|x p IH]; [done|].
  rewrite !append_cons. intros [= H]. by apply IH.
Qed.

Lemma key_for_inj a b : key_for a = key_for b → a = b.
Proof. apply append_inj_l. Qed.

(** X5. Recording a change of one resource leaves what is read for any
    other resource as it was: resources with different names never share
    a key. *)
Theorem set_resource_other h d1 d2 w :
  d1 ≠ d2 →
  key_for d1 ≠ key_for d2
  ∧ (get_resource_changed_timestamp d2 (set_resource h d1 w).2).1
    = (get_resource_changed_timestamp d2 w).1.
Proof.
  intros Hne.
  assert (Hkey : key_for d1 ≠ key_for d2).
  { intros E. by apply Hne, key_for_inj. }
  split; [done|].
  unfold get_resource_changed_timestamp, bind, db_get.
  rewrite set_resource_db, lookup_insert_ne by done.
  by destruct (db w !! key_for d2) as [t|]; [destruct (fromtimestamp t)|].
Qed.

Lemma set_resource_other_witness :
  (get_resource_changed_timestamp "kernel" (set_resource h0 "grub" w0).2).1
  = (get_resource_changed_timestamp "kernel" w0).1.
Proof.
  apply (set_resource_other h0 "grub" "kernel" w0). discriminate.
Defined.

(** X6. The tracker keeps one instant per resource, the last one: after
    two records of the same resource the store is what the second record
    alone would have made it, and the instant read back is the clock of
    the second record, for a clock whose float timestamp is exact. *)
Theorem set_resource_last_wins h1 h2 d w :
  float_exact (now h2) →
  db (set_resource h2 d (set_resource h1 d w).2).2
  = db (set_resource h2 d w).2
  ∧ (get_resource_changed_timestamp d
       (set_resource h2 d (set_resource h1 d w).2).2).1
    = Ok (now h2).
Proof.
  intros Hnow. split.
  - rewrite !set_resource_db. apply insert_insert_eq.
  - by rewrite get_after_set.
Qed.

Lemma set_resource_last_wins_witness :
  (get_resource_changed_timestamp "grub"
     (set_resource (later 5000000 h0) "grub"
        (set_resource h0 "grub" w0).2).2).1
  = Ok (now h0 + 5000000).
Proof.
  apply (set_resource_last_wins h0 (later 5000000 h0) "grub" w0).
  vm_compute. split; reflexivity.
Defined.

(** X7. A change recorded no later than the boot instant is not reported:
    after a reboot the resources recorded before it count as applied.
    The clock at the record is one whose float timestamp is exact. *)
Theorem set_resource_before_boot d h1 h2 w boot_ts :
  float_exact (now h1) →
  boot_time h2 = Ok boot_ts →
  now h1 <= boot_ts →
  resources_changed_since_boot h2 [d] (set_resource h1 d w).2
  = (Ok [], (set_resource h1 d w).2).
Proof.
  intros Hnow Hbt Hle.
  rewrite (changed_singleton h2 d _ boot_ts (now h1)).
  - replace (boot_ts <? now h1) with false; [done|].
    symmetry. apply Z.ltb_ge. lia.
  - exact Hbt.
  - by apply get_after_set.
Qed.

Lemma set_resource_before_boot_witness :
  resources_changed_since_boot (rebooted h0 "5.15.0-99-generic") ["grub"]
    (set_resource h0 "grub" w0).2
  = (Ok [], (set_resource h0 "grub" w0).2).
Proof.
  apply (set_resource_before_boot "grub" h0 (rebooted h0 "5.15.0-99-generic")
           w0 (now h0 + 30000000)).
  - vm_compute. split; reflexivity.
  - reflexivity.
  - lia.
Defined.

(** X8. Asking about two lists of resources at once gives the two answers
    one after the other, and asking again about the resources of an answer
    gives that answer back. *)
Theorem resources_changed_since_boot_app h xs ys w boot_ts :
  wf_db (db w) → boot_time h = Ok boot_ts →
  ∃ changed_xs changed_ys,
    resources_changed_since_boot h xs w = (Ok changed_xs, w)
    ∧ resources_changed_since_boot h ys w = (Ok changed_ys, w)
    ∧ resources_changed_since_boot h (xs ++ ys)%list w
      = (Ok (changed_xs ++ changed_ys)%list, w)
    ∧ resources_changed_since_boot h changed_xs w = (Ok changed_xs, w).
Proof.
  intros Hwf Hbt.
  eexists _, _. split_and!.
  - by apply resources_changed_since_boot_run.
  - by apply resources_changed_since_boot_run.
  - rewrite (resources_changed_since_boot_run h _ w boot_ts) by done.
    by rewrite List.filter_app.
  - rewrite (resources_changed_since_boot_run h _ w boot_ts) by done.
    f_equal. f_equal.
    induction xs as [|x xs IH]; [done|]. simpl.
    destruct (boot_ts <? last_changed (db w) x) eqn:E; [|done].
    simpl. by rewrite E, IH.
Qed.

Lemma resources_changed_since_boot_app_witness :
  ∃ changed_xs changed_ys,
    resources_changed_since_boot h0 ["grub"; "kernel"]
      (set_resource h0 "kernel" w0).2
    = (Ok changed_xs, (set_resource h0 "kernel" w0).2)
    ∧ resources_changed_since_boot h0 ["systemd"]
        (set_resource h0 "kernel" w0).2
      = (Ok changed_ys, (set_resource h0 "kernel" w0).2)
    ∧ resources_changed_since_boot h0 ["grub"; "kernel"; "systemd"]
        (set_resource h0 "kernel" w0).2
      = (Ok (changed_xs ++ changed_ys)%list, (set_resource h0 "kernel" w0).2).
Proof.
  destruct (resources_changed_since_boot_app h0 ["grub"; "kernel"]
              ["systemd"] (set_resource h0 "kernel" w0).2
              (now h0 - uptime h0)) as (cx & cy & Hx & Hy & Hxy & _).
  - apply set_resource_wf; [vm_compute; split; reflexivity|apply wf_db_empty].
  - reflexivity.
  - by exists cx, cy.
Defined.

(** ** The procedures of the helper, continued *)

Lemma truthy_decide s : truthy s = bool_decide (s ≠ "").
Proof.
  pose proof (truthy_case s) as H.
  destruct (truthy s); symmetry;
    [by apply bool_decide_eq_true|apply bool_decide_eq_false; tauto].
Qed.

Lemma string_eqb_decide (a b : string) : String.eqb a b = bool_decide (a = b).
Proof.
  pose proof (string_eqb_case a b) as H.
  destruct (String.eqb a b); symmetry;
    [by apply bool_decide_eq_true|by apply bool_decide_eq_false].
Qed.

Lemma py_in_decide x xs : py_in x xs = bool_decide (x ∈ xs).
Proof.
  destruct (py_in x xs) eqn:E; symmetry.
  - by apply bool_decide_eq_true, py_in_spec.
  - apply bool_decide_eq_false. intros H%py_in_spec. congruence.
Qed.

Lemma knobs_context_cons b k v knobs :
  knobs_context ((b, k, v) :: knobs) = assign_if b k v (knobs_context knobs).
Proof.
  unfold knobs_context, assign_if. rewrite filter_cons. simpl.
  destruct b.
  - by rewrite decide_True.
  - by rewrite decide_False.
Qed.

(** [update_grub_file] up to its last step, with the context spelled
    out. *)
Lemma update_grub_file_world cfg h w :
  update_grub_file cfg h w =
    _update_grub cfg h
      {| db := <[key_for GRUB_CONF := timestamp (now h)]> (db w);
         files := {[GRUB_CONF]} ∪ files w;
         trace :=
           trace w
           ++ (if bool_decide (kernel_version cfg ≠ ""
                               ∧ kernel_version cfg = running_kernel h)
               then [Log "Already running kernel: {}"
                         [AStr (kernel_version cfg)] DEBUG]
               else [])
           ++ [Render GRUB_CONF_TMPL GRUB_CONF
                 (grub_context cfg (running_kernel h));
               KvSet (key_for GRUB_CONF) (timestamp (now h));
               Log "grub configuration updated" [] None] |}.
Proof.
  unfold update_grub_file. cbv zeta.
  unfold grub_config_flags. rewrite parse_config_flags_total.
  unfold of_option. unfold bind at 1. unfold ret at 1.
  unfold _is_kernel_already_running, grub_context.
  rewrite !truthy_decide, !string_eqb_decide.
  rewrite !knobs_context_cons.
  change (knobs_context []) with (∅ : gmap string ctxval).
  set (base := assign_if true "grub_config_flags" _ _).
  change (<["grub_config_flags" := ?v]> ?m) with base.
  destruct (decide (kernel_version cfg = "")) as [Hkv|Hkv];
    destruct (decide (kernel_version cfg = running_kernel h)) as [Hrun|Hrun];
    repeat case_bool_decide; try (exfalso; tauto);
    unfold bind, ret, log, emit, _render_boot_resource, render,
      set_resource, db_set, bind; simpl;
    by rewrite <- ?app_assoc.
Qed.

Lemma _update_grub_frame cfg h w :
  db (_update_grub cfg h w).2 = db w
  ∧ files (_update_grub cfg h w).2 = files w.
Proof.
  rewrite _update_grub_run.
  destruct (update_grub cfg && negb (is_container h)); [|done].
  by destruct (exit_status h update_grub_command =? 0).
Qed.

Lemma update_grub_file_rendered cfg h w :
  contexts_rendered_to GRUB_CONF (trace (update_grub_file cfg h w).2)
  = (contexts_rendered_to GRUB_CONF (trace w)
     ++ [grub_context cfg (running_kernel h)])%list.
Proof.
  rewrite update_grub_file_world, _update_grub_renders_nothing. simpl.
  rewrite !contexts_rendered_to_app.
  by case_bool_decide.
Qed.

Lemma changed_if_recorded h d w boot_ts t :
  boot_time h = Ok boot_ts →
  float_exact t →
  db w !! key_for d = Some (timestamp t) →
  resources_changed_since_boot h [d] w
  = (Ok (if boot_ts <? t then [d] else []), w).
Proof.
  intros Hbt Ht Hrec. apply changed_singleton; [done|].
  unfold get_resource_changed_timestamp, bind, db_get. rewrite Hrec.
  unfold lift. by rewrite fromtimestamp_timestamp.
Qed.

(** X9. [is_config_valid] answers true exactly when the reservation, the
    raid autodetection and the governor are all among their admitted
    values.  It never raises, writes one log line per option at fault and
    changes nothing else. *)
Theorem is_config_valid_correct cfg w :
  ∃ logs,
    is_config_valid cfg w
    = (Ok (bool_decide
             (reservation cfg ∈ ["off"; "isolcpus"; "affinity"]
              ∧ raid_autodetection cfg ∈ [""; "noautodetect"; "partitionable"]
              ∧ governor cfg ∈ [""; "powersave"; "performance"])),
       logged w logs)
    ∧ Forall is_log logs
    ∧ length logs
      = ((if decide (reservation cfg ∈ ["off"; "isolcpus"; "affinity"])
          then 0 else 1)
         + (if decide (raid_autodetection cfg
                         ∈ [""; "noautodetect"; "partitionable"])
            then 0 else 1)
         + (if decide (governor cfg ∈ [""; "powersave"; "performance"])
            then 0 else 1))%nat.
Proof.
  unfold is_config_valid. cbv zeta. rewrite !py_in_decide.
  destruct (decide (reservation cfg ∈ ["off"; "isolcpus"; "affinity"]));
    destruct (decide (raid_autodetection cfg
                        ∈ [""; "noautodetect"; "partitionable"]));
    destruct (decide (governor cfg ∈ [""; "powersave"; "performance"]));
    repeat case_bool_decide; try (exfalso; tauto);
    unfold bind, ret, log, emit, logged; simpl;
    rewrite <- ?app_assoc; simpl.
  1: exists []; rewrite app_nil_r; destruct w; by repeat constructor.
  all: eexists; split; [reflexivity|]; split; [by repeat constructor|done].
Qed.

(** X10. Off the legacy release, or inside a container, [update_cpufreq]
    with an admitted governor leaves the ondemand script alone: it
    renders the governor, records the file and restarts the service, runs
    no command and cannot fail. *)
Theorem update_cpufreq_plain cfg h w :
  distrib_codename h ≠ "xenial" ∨ is_container h = true →
  governor cfg ∈ [""; "powersave"; "performance"] →
  update_cpufreq cfg h w =
    (Ok tt,
     {| db := <[key_for CPUFREQUTILS := timestamp (now h)]> (db w);
        files := {[CPUFREQUTILS]} ∪ files w;
        trace :=
          trace w ++
          [Render CPUFREQUTILS_TMPL CPUFREQUTILS
             {[ "governor" := VStr (governor cfg) ]};
           KvSet (key_for CPUFREQUTILS) (timestamp (now h));
           ServiceRestart "cpufrequtils"] |}).
Proof.
  intros Hplain Hgov. unfold update_cpufreq.
  replace (py_in (governor cfg) [""; "performance"; "powersave"]) with true.
  2:{ symmetry. apply py_in_spec.
      rewrite !elem_of_cons in Hgov. rewrite !elem_of_cons. tauto. }
  replace (String.eqb (distrib_codename h) "xenial" && negb (is_container h))
    with false.
  2:{ symmetry. apply andb_false_iff.
      destruct Hplain as [Hne| ->]; [left|by right].
      rewrite string_eqb_decide. by apply bool_decide_eq_false. }
  unfold bind, _render_boot_resource, render, set_resource, db_set, bind,
    emit, ret. simpl.
  by rewrite <- !app_assoc.
Qed.

Lemma update_cpufreq_plain_witness :
  (update_cpufreq cfg0 (contained h0) w0).1 = Ok tt.
Proof.
  rewrite update_cpufreq_plain.
  - reflexivity.
  - by right.
  - simpl. rewrite !elem_of_cons. tauto.
Defined.

Ltac lookup_knob :=
  repeat first [ rewrite lookup_assign_if_eq
               | rewrite lookup_assign_if_ne by done ];
  rewrite ?lookup_empty.

(** X11. The context [update_grub_file] renders holds each knob exactly
    under its condition: the cpu range under the isolcpus reservation,
    the hugepage count and size and the raid mode when not empty, the
    PTI switch when PTI is disabled, the IOMMU switch when it is
    enabled, the parsed free-form flags always; and nothing besides
    these and the default-entry pin. *)
Theorem update_grub_file_context cfg h w :
  ∃ context flags,
    contexts_rendered_to GRUB_CONF (trace (update_grub_file cfg h w).2)
    = (contexts_rendered_to GRUB_CONF (trace w) ++ [context])%list
    ∧ parse_config_flags (grub_config_flags_option cfg) = Some flags
    ∧ context !! "cpu_range"
      = (if decide (reservation cfg = "isolcpus")
         then Some (VStr (cpu_range cfg)) else None)
    ∧ context !! "hugepages"
      = (if decide (hugepages cfg = "")
         then None else Some (VStr (hugepages cfg)))
    ∧ context !! "hugepagesz"
      = (if decide (hugepagesz cfg = "")
         then None else Some (VStr (hugepagesz cfg)))
    ∧ context !! "raid"
      = (if decide (raid_autodetection cfg = "")
         then None else Some (VStr (raid_autodetection cfg)))
    ∧ context !! "pti_off"
      = (if enable_pti cfg then None else Some (VBool true))
    ∧ context !! "iommu"
      = (if enable_iommu cfg then Some (VBool true) else None)
    ∧ context !! "grub_config_flags" = Some (VDict flags)
    ∧ ∀ k, is_Some (context !! k) →
           k ∈ ["cpu_range"; "hugepages"; "hugepagesz"; "raid"; "pti_off";
                "iommu"; "grub_config_flags"; "grub_default"].
Proof.
  exists (grub_context cfg (running_kernel h)),
    (parse_config_flags_spec (grub_config_flags_option cfg)).
  unfold grub_context. rewrite !knobs_context_cons.
  change (knobs_context []) with (∅ : gmap string ctxval).
  split_and!.
  - rewrite update_grub_file_rendered. unfold grub_context.
    by rewrite !knobs_context_cons.
  - apply parse_config_flags_total.
  - lookup_knob. case_bool_decide; case_decide; done.
  - lookup_knob. case_bool_decide; case_decide; done.
  - lookup_knob. case_bool_decide; case_decide; done.
  - lookup_knob. case_bool_decide; case_decide; done.
  - lookup_knob. by destruct (enable_pti cfg).
  - lookup_knob. done.
  - lookup_knob. done.
  - intros k [v Hv].
    destruct (decide (k ∈ ["cpu_range"; "hugepages"; "hugepagesz"; "raid";
                           "pti_off"; "iommu"; "grub_config_flags";
                           "grub_default"])) as [|Hk]; [done|].
    exfalso. rewrite !not_elem_of_cons in Hk.
    destruct Hk as (?&?&?&?&?&?&?&?&_).
    rewrite !lookup_assign_if_ne in Hv by done.
    by rewrite lookup_empty in Hv.
Qed.

(** X12. Running [update_grub_file] twice with one configuration while
    the same kernel runs renders the same context both times. *)
Theorem update_grub_file_idempotent cfg h1 h2 w :
  running_kernel h1 = running_kernel h2 →
  ∃ context,
    contexts_rendered_to GRUB_CONF
      (trace (update_grub_file cfg h2 (update_grub_file cfg h1 w).2).2)
    = (contexts_rendered_to GRUB_CONF (trace w) ++ [context; context])%list.
Proof.
  intros Hsame. exists (grub_context cfg (running_kernel h1)).
  rewrite !update_grub_file_rendered, Hsame.
  by rewrite <- app_assoc.
Qed.

Lemma update_grub_file_idempotent_witness :
  ∃ context,
    contexts_rendered_to GRUB_CONF
      (trace (update_grub_file cfg0 (later 1000000 h0)
                (update_grub_file cfg0 h0 w0).2).2)
    = [context; context].
Proof.
  destruct (update_grub_file_idempotent cfg0 h0 (later 1000000 h0) w0)
    as [context Hcontext]; [reflexivity|].
  by exists context.
Defined.

(** X13. [update_grub_file] writes the grub file and records it before it
    turns to [update-grub]: both stand whatever the outcome, and the
    procedure fails exactly when the option is set, the host is no
    container and the command ends with a non-zero status. *)
Theorem update_grub_file_recorded cfg h w :
  db (update_grub_file cfg h w).2
  = <[key_for GRUB_CONF := timestamp (now h)]> (db w)
  ∧ files (update_grub_file cfg h w).2 = {[GRUB_CONF]} ∪ files w
  ∧ ((update_grub_file cfg h w).1 = Ok tt
     ∨ (update_grub_file cfg h w).1
       = Raise (CalledProcessError update_grub_command
                  (exit_status h update_grub_command)))
  ∧ ((update_grub_file cfg h w).1 = Ok tt
     ↔ ¬ (update_grub cfg = true ∧ is_container h = false
          ∧ exit_status h update_grub_command ≠ 0)).
Proof.
  rewrite update_grub_file_world.
  split_and!; try apply _update_grub_frame.
  - rewrite _update_grub_run.
    destruct (update_grub cfg && negb (is_container h)); [|by left].
    destruct (exit_status h update_grub_command =? 0); [by left|by right].
  - rewrite _update_grub_run.
    destruct (update_grub cfg), (is_container h); simpl;
      try (split; [intros _; intros (?&?&?); congruence|done]).
    destruct (Z.eqb_spec (exit_status h update_grub_command) 0) as [E|E];
      simpl.
    + split; [intros _ (_&_&?); congruence|done].
    + split; [done|]. intros Hn. exfalso. by apply Hn.
Qed.

(** X14. After [update_grub_file], whatever its outcome, the grub file is
    reported as changed since boot by any host state whose boot instant
    is before the clock of the call, a clock whose float timestamp is
    exact. *)
Theorem update_grub_file_reported cfg h h' w boot_ts :
  float_exact (now h) →
  boot_time h' = Ok boot_ts →
  boot_ts < now h →
  resources_changed_since_boot h' [GRUB_CONF] (update_grub_file cfg h w).2
  = (Ok [GRUB_CONF], (update_grub_file cfg h w).2).
Proof.
  intros Hnow Hbt Hlt.
  rewrite (changed_if_recorded h' GRUB_CONF _ boot_ts (now h)); try done.
  - apply Z.ltb_lt in Hlt. by rewrite Hlt.
  - rewrite update_grub_file_world.
    rewrite (proj1 (_update_grub_frame _ _ _)). simpl.
    apply lookup_insert_eq.
Qed.

Lemma update_grub_file_reported_witness :
  resources_changed_since_boot (later 1000000 h0) [GRUB_CONF]
    (update_grub_file cfg0 h0 w0).2
  = (Ok [GRUB_CONF], (update_grub_file cfg0 h0 w0).2).
Proof.
  apply (update_grub_file_reported cfg0 h0 (later 1000000 h0) w0
           (now h0 - uptime h0)).
  - vm_compute. split; reflexivity.
  - reflexivity.
  - vm_compute. reflexivity.
Defined.

Lemma check_calls_app tr1 tr2 :
  check_calls (tr1 ++ tr2) = (check_calls tr1 ++ check_calls tr2)%list.
Proof. apply omap_app. Qed.

Lemma remove_grub_configuration_absent cfg h w :
  GRUB_CONF ∉ files w → remove_grub_configuration cfg h w = (Ok tt, w).
Proof.
  intros Habsent.
  unfold remove_grub_configuration, bind, path_exists. cbv zeta.
  by rewrite bool_decide_eq_false_2.
Qed.

(** What [remove_grub_configuration] does to a file that is there, up to
    its last two steps. *)
Lemma remove_grub_configuration_present cfg h w :
  GRUB_CONF ∈ files w →
  remove_grub_configuration cfg h w =
    (_update_grub cfg h ;; set_resource h GRUB_CONF)
      {| db := db w;
         files := files w ∖ {[GRUB_CONF]};
         trace :=
           trace w ++
           [Remove GRUB_CONF;
            Log "deleted grub configuration at " [AStr GRUB_CONF] DEBUG] |}.
Proof.
  intros Hpresent.
  unfold remove_grub_configuration, path_exists, os_remove, log, emit.
  cbv zeta. unfold bind at 1. rewrite bool_decide_eq_true_2 by done.
  cbn [negb]. unfold bind at 1. rewrite bool_decide_eq_true_2 by done.
  unfold bind at 1. simpl. by rewrite <- app_assoc.
Qed.

Lemma remove_grub_configuration_gone cfg h w :
  GRUB_CONF ∉ files (remove_grub_configuration cfg h w).2.
Proof.
  destruct (decide (GRUB_CONF ∈ files w)) as [Hin|Hout].
  - rewrite remove_grub_configuration_present by done.
    unfold bind. rewrite _update_grub_run.
    destruct (update_grub cfg && negb (is_container h));
      [destruct (exit_status h update_grub_command =? 0)|];
      simpl; apply not_elem_of_difference; right; by apply elem_of_singleton.
  - by rewrite remove_grub_configuration_absent.
Qed.

(** X15. With the [update-grub] option off, or inside a container,
    neither [update_grub_file] nor [remove_grub_configuration] runs any
    command, and neither can fail. *)
Theorem no_update_grub cfg h w :
  update_grub cfg = false ∨ is_container h = true →
  (update_grub_file cfg h w).1 = Ok tt
  ∧ check_calls (trace (update_grub_file cfg h w).2) = check_calls (trace w)
  ∧ (remove_grub_configuration cfg h w).1 = Ok tt
  ∧ check_calls (trace (remove_grub_configuration cfg h w).2)
    = check_calls (trace w).
Proof.
  intros Hoff.
  assert (Hrun : ∀ w', _update_grub cfg h w' = (Ok tt, w')).
  { intros w'. rewrite _update_grub_run.
    replace (update_grub cfg && negb (is_container h)) with false; [done|].
    symmetry. apply andb_false_iff.
    destruct Hoff as [->| ->]; [by left|by right]. }
  rewrite update_grub_file_world, Hrun. simpl.
  split_and!; [done| |..].
  - rewrite !check_calls_app. case_bool_decide; simpl; by rewrite app_nil_r.
  - destruct (decide (GRUB_CONF ∈ files w)) as [Hin|Hout].
    + rewrite remove_grub_configuration_present by done.
      unfold bind. by rewrite Hrun.
    + by rewrite remove_grub_configuration_absent.
  - destruct (decide (GRUB_CONF ∈ files w)) as [Hin|Hout].
    + rewrite remove_grub_configuration_present by done.
      unfold bind. rewrite Hrun. simpl.
      rewrite !check_calls_app. simpl. by rewrite !app_nil_r.
    + by rewrite remove_grub_configuration_absent.
Qed.

Lemma no_update_grub_witness :
  (update_grub_file cfg0 (contained h0) w0).1 = Ok tt
  ∧ check_calls (trace (update_grub_file cfg0 (contained h0) w0).2) = [].
Proof.
  destruct (no_update_grub cfg0 (contained h0) w0) as (Hok & Hcalls & _).
  - by right.
  - by split.
Defined.

(** X16. [update_systemd_system_file] never fails.  It renders the
    systemd file once, with the parsed free-form flags and, under the
    affinity reservation only, the cpu range; then it records the file
    and writes a log line. *)
Theorem update_systemd_system_file_correct cfg h w :
  ∃ context flags,
    update_systemd_system_file cfg h w =
      (Ok tt,
       {| db := <[key_for SYSTEMD_SYSTEM := timestamp (now h)]> (db w);
          files := {[SYSTEMD_SYSTEM]} ∪ files w;
          trace :=
            trace w ++
            [Render SYSTEMD_SYSTEM_TMPL SYSTEMD_SYSTEM context;
             KvSet (key_for SYSTEMD_SYSTEM) (timestamp (now h));
             Log "systemd configuration updated" [] None] |})
    ∧ parse_config_flags (systemd_config_flags_option cfg) = Some flags
    ∧ context !! "systemd_config_flags" = Some (VDict flags)
    ∧ context !! "cpu_range"
      = (if decide (reservation cfg = "affinity")
         then Some (VStr (cpu_range cfg)) else None)
    ∧ ∀ k, is_Some (context !! k) →
           k = "systemd_config_flags" ∨ k = "cpu_range".
Proof.
  eexists _, (parse_config_flags_spec (systemd_config_flags_option cfg)).
  split_and!.
  - unfold update_systemd_system_file, systemd_config_flags. cbv zeta.
    rewrite parse_config_flags_total.
    unfold of_option, bind, ret, log, emit, _render_boot_resource, render,
      set_resource, db_set, bind. simpl.
    rewrite <- !app_assoc. reflexivity.
  - apply parse_config_flags_total.
  - apply lookup_insert_eq.
  - rewrite lookup_insert_ne by done.
    rewrite lookup_assign_if_eq, lookup_empty, string_eqb_decide.
    case_bool_decide; case_decide; done.
  - intros k [v Hv].
    destruct (decide (k = "systemd_config_flags")) as [|Hk1]; [by left|].
    destruct (decide (k = "cpu_range")) as [|Hk2]; [by right|].
    rewrite lookup_insert_ne, lookup_assign_if_ne, lookup_empty in Hv by done.
    done.
Qed.

(** X17. Removing the grub configuration twice is removing it once: the
    second call finds no file and does nothing, whatever the first one
    met. *)
Theorem remove_grub_configuration_twice cfg1 cfg2 h1 h2 w :
  remove_grub_configuration cfg2 h2 (remove_grub_configuration cfg1 h1 w).2
  = (Ok tt, (remove_grub_configuration cfg1 h1 w).2).
Proof.
  apply remove_grub_configuration_absent, remove_grub_configuration_gone.
Qed.

(** X18. A removal that follows [update_grub_file] always finds the file
    that was rendered: it deletes it first thing, and the file is gone
    afterwards, whatever the outcome of either call. *)
Theorem remove_after_update_grub_file cfg1 cfg2 h1 h2 w :
  ∃ rest,
    trace (remove_grub_configuration cfg2 h2
             (update_grub_file cfg1 h1 w).2).2
    = (trace (update_grub_file cfg1 h1 w).2
       ++ Remove GRUB_CONF :: rest)%list
    ∧ GRUB_CONF ∉ files (remove_grub_configuration cfg2 h2
                           (update_grub_file cfg1 h1 w).2).2.
Proof.
  assert (Hin : GRUB_CONF ∈ files (update_grub_file cfg1 h1 w).2).
  { rewrite update_grub_file_world.
    rewrite (proj2 (_update_grub_frame _ _ _)). simpl.
    by apply elem_of_union_l, elem_of_singleton. }
  pose proof (remove_grub_configuration_gone cfg2 h2
                (update_grub_file cfg1 h1 w).2) as Hgone.
  set (w1 := (update_grub_file cfg1 h1 w).2) in *.
  cut (∃ rest,
         trace (remove_grub_configuration cfg2 h2 w1).2
         = (trace w1 ++ Remove GRUB_CONF :: rest)%list).
  { intros [rest Hrest]. by exists rest. }
  rewrite remove_grub_configuration_present by done.
  unfold bind. rewrite _update_grub_run.
  destruct (update_grub cfg2 && negb (is_container h2));
    [destruct (exit_status h2 update_grub_command =? 0)|];
    simpl; rewrite <- ?app_assoc; simpl; eexists; reflexivity.
Qed.

(** X19. Removing the systemd configuration is a change like any other:
    the file is rendered anew from an empty context, the call cannot
    fail, and the file is reported as changed since boot afterwards (the
    clock of the call being one whose float timestamp is exact). *)
Theorem remove_systemd_configuration_reported h h' w boot_ts :
  float_exact (now h) →
  boot_time h' = Ok boot_ts →
  boot_ts < now h →
  (remove_systemd_configuration h w).1 = Ok tt
  ∧ contexts_rendered_to SYSTEMD_SYSTEM
      (trace (remove_systemd_configuration h w).2)
    = (contexts_rendered_to SYSTEMD_SYSTEM (trace w) ++ [∅])%list
  ∧ resources_changed_since_boot h' [SYSTEMD_SYSTEM]
      (remove_systemd_configuration h w).2
    = (Ok [SYSTEMD_SYSTEM], (remove_systemd_configuration h w).2).
Proof.
  intros Hnow Hbt Hlt. split_and!.
  - done.
  - unfold remove_systemd_configuration, bind, log, emit,
      _render_boot_resource, render, set_resource, db_set, bind. simpl.
    rewrite !contexts_rendered_to_app. simpl.
    by rewrite <- ?app_assoc, ?app_nil_r.
  - rewrite (changed_if_recorded h' SYSTEMD_SYSTEM _ boot_ts (now h));
      try done.
    + apply Z.ltb_lt in Hlt. by rewrite Hlt.
    + apply lookup_insert_eq.
Qed.

Lemma remove_systemd_configuration_reported_witness :
  resources_changed_since_boot (later 1000000 h0) [SYSTEMD_SYSTEM]
    (remove_systemd_configuration h0 w0).2
  = (Ok [SYSTEMD_SYSTEM], (remove_systemd_configuration h0 w0).2).
Proof.
  apply (remove_systemd_configuration_reported h0 (later 1000000 h0) w0
           (now h0 - uptime h0)).
  - vm_compute. split; reflexivity.
  - reflexivity.
  - vm_compute. reflexivity.
Defined.

(** X20. [remove_cpufreq_configuration] re-enables the ondemand script
    first, on the legacy release outside a container only, and a failure
    of that command ends the call with nothing rendered, recorded or
    restarted.  Otherwise the file is rendered from an empty context and
    recorded, and the service restarted. *)
Theorem remove_cpufreq_configuration_correct h w :
  let enable :=
    [Log ("Enabling the ondemand initscript for lp#1822774"
          ++ " and lp#740127")%string [] (Some "DEBUG");
     CheckCall (ondemand "defaults")] in
  let rendered :=
    [Render CPUFREQUTILS_TMPL CPUFREQUTILS ∅;
     KvSet (key_for CPUFREQUTILS) (timestamp (now h));
     Log "deleted cpufreq configuration at " [AStr CPUFREQUTILS] DEBUG;
     ServiceRestart "cpufrequtils"] in
  remove_cpufreq_configuration h w =
    if bool_decide (distrib_codename h = "xenial") && negb (is_container h)
    then
      if exit_status h (ondemand "defaults") =? 0 then
        (Ok tt,
         {| db := <[key_for CPUFREQUTILS := timestamp (now h)]> (db w);
            files := {[CPUFREQUTILS]} ∪ files w;
            trace := trace w ++ enable ++ rendered |})
      else
        (Raise (CalledProcessError (ondemand "defaults")
                  (exit_status h (ondemand "defaults"))),
         logged w enable)
    else
      (Ok tt,
       {| db := <[key_for CPUFREQUTILS := timestamp (now h)]> (db w);
          files := {[CPUFREQUTILS]} ∪ files w;
          trace := trace w ++ rendered |}).
Proof.
  intros enable rendered. subst enable rendered.
  unfold remove_cpufreq_configuration. cbv zeta.
  rewrite string_eqb_decide.
  destruct (bool_decide (distrib_codename h = "xenial")
            && negb (is_container h));
    unfold bind, log, check_call, emit, _render_boot_resource, render,
      set_resource, db_set, bind, ret, raise, logged; simpl.
  - destruct (exit_status h (ondemand "defaults") =? 0); simpl;
      by rewrite <- !app_assoc.
  - by rewrite <- !app_assoc.
Qed.

(** ** What holds after any history of calls *)

Section Invariant.

Variable I : gmap string Z → Prop.
Variable h : host.
Hypothesis I_record :
  ∀ name d, name ∈ tracked → I d →
            I (<[key_for name := timestamp (now h)]> d).

Lemma keeps_bind {A B} (m : M A) (k : A → M B) :
  keeps I m → (∀ a, keeps I (k a)) → keeps I (bind m k).
Proof.
  intros Hm Hk w Hw. unfold bind.
  specialize (Hm w Hw).
  destruct (m w) as [[a|e] w']; simpl in *; [by apply Hk|done].
Qed.

Lemma keeps_frame {A} (m : M A) : (∀ w, db (m w).2 = db w) → keeps I m.
Proof. intros Hm w Hw. by rewrite Hm. Qed.

Lemma keeps_ret {A} (a : A) : keeps I (ret a).
Proof. by apply keeps_frame. Qed.

Lemma keeps_raise {A} e : keeps I (raise (A:=A) e).
Proof. by apply keeps_frame. Qed.

Lemma keeps_emit e : keeps I (emit e).
Proof. by apply keeps_frame. Qed.

Lemma keeps_render s t c : keeps I (render s t c).
Proof. by apply keeps_frame. Qed.

Lemma keeps_of_option {A} (o : option A) : keeps I (of_option o).
Proof. destruct o; by apply keeps_frame. Qed.

Lemma keeps_path_exists p : keeps I (path_exists p).
Proof. by apply keeps_frame. Qed.

Lemma keeps_os_remove p : keeps I (os_remove p).
Proof.
  apply keeps_frame. intros w. unfold os_remove.
  by destruct (bool_decide (p ∈ files w)).
Qed.

Lemma keeps_set_resource name :
  name ∈ tracked → keeps I (set_resource h name).
Proof. intros Hname w Hw. rewrite set_resource_db. by apply I_record. Qed.

Lemma keeps_check_call argv : keeps I (check_call h argv).
Proof.
  apply keeps_bind; [apply keeps_emit|]. intros _.
  destruct (exit_status h argv =? 0); [apply keeps_ret|apply keeps_raise].
Qed.

Ltac keep :=
  repeat first
    [ apply keeps_ret
    | apply keeps_raise
    | apply keeps_emit
    | apply keeps_render
    | apply keeps_of_option
    | apply keeps_path_exists
    | apply keeps_os_remove
    | apply keeps_check_call
    | apply keeps_set_resource;
      unfold tracked;
      repeat first [apply list_elem_of_here | apply list_elem_of_further]
    | apply keeps_bind
    | match goal with
      | |- keeps _ (if ?b then _ else _) => destruct b
      | |- ∀ _, _ => intro
      end ].

Lemma keeps_is_config_valid cfg : keeps I (is_config_valid cfg).
Proof. unfold is_config_valid, log. cbv zeta. keep. Qed.

Lemma keeps_update_grub_file cfg : keeps I (update_grub_file cfg h).
Proof.
  unfold update_grub_file, grub_config_flags, _is_kernel_already_running,
    _render_boot_resource, _update_grub, log.
  cbv zeta. keep.
Qed.

Lemma keeps_update_systemd_system_file cfg :
  keeps I (update_systemd_system_file cfg h).
Proof.
  unfold update_systemd_system_file, systemd_config_flags,
    _render_boot_resource, log.
  cbv zeta. keep.
Qed.

Lemma keeps_install_configured_kernel cfg :
  keeps I (install_configured_kernel cfg h).
Proof.
  unfold install_configured_kernel, _is_kernel_already_running, log.
  cbv zeta. keep.
Qed.

Lemma keeps_update_cpufreq cfg : keeps I (update_cpufreq cfg h).
Proof. unfold update_cpufreq, _render_boot_resource, log. cbv zeta. keep. Qed.

Lemma keeps_remove_grub_configuration cfg :
  keeps I (remove_grub_configuration cfg h).
Proof.
  unfold remove_grub_configuration, _update_grub, log. cbv zeta. keep.
Qed.

Lemma keeps_remove_systemd_configuration :
  keeps I (remove_systemd_configuration h).
Proof.
  unfold remove_systemd_configuration, _render_boot_resource, log.
  cbv zeta. keep.
Qed.

Lemma keeps_remove_cpufreq_configuration :
  keeps I (remove_cpufreq_configuration h).
Proof.
  unfold remove_cpufreq_configuration, _render_boot_resource, log.
  cbv zeta. keep.
Qed.

(** Every procedure keeps a property of the store that records of the
    tracked resources keep. *)
Lemma call_keeps cfg p w : I (db w) → I (db (call cfg h p w)).
Proof.
  intros Hw. destruct p; cbn [call].
  - by apply keeps_is_config_valid.
  - by apply keeps_update_grub_file.
  - by apply keeps_update_systemd_system_file.
  - by apply keeps_install_configured_kernel.
  - by apply keeps_update_cpufreq.
  - by apply keeps_remove_grub_configuration.
  - by apply keeps_remove_systemd_configuration.
  - by apply keeps_remove_cpufreq_configuration.
Qed.

End Invariant.

Lemma history_keeps (I : gmap string Z → Prop) calls : ∀ w,
  Forall (λ c : config * host * procedure,
            ∀ name d, name ∈ tracked → I d →
                      I (<[key_for name := timestamp (now c.1.2)]> d)) calls →
  I (db w) → I (db (history calls w)).
Proof.
  induction calls as [|[[cfg h] p] calls IH]; intros w Hcalls Hw; [done|].
  apply Forall_cons in Hcalls as [Hc Hcalls].
  simpl. apply IH; [done|]. by apply call_keeps.
Qed.

(** X21. Whatever procedures were called before, in whatever order and
    with whatever outcome, as long as the clock at each call was one
    whose float timestamp is exact: every timestamp in the store is that
    of a datetime, and asking what changed since boot returns an answer
    for any list of names. *)
Theorem history_well_formed calls w h names boot_ts :
  Forall (λ c : config * host * procedure, float_exact (now c.1.2)) calls →
  wf_db (db w) →
  boot_time h = Ok boot_ts →
  wf_db (db (history calls w))
  ∧ ∃ changed,
      resources_changed_since_boot h names (history calls w)
      = (Ok changed, history calls w).
Proof.
  intros Hclock Hwf Hbt.
  assert (Hwf' : wf_db (db (history calls w))).
  { apply (history_keeps wf_db); [|done].
    eapply Forall_impl; [exact Hclock|].
    intros [[cfg hc] p] Hnow%float_exact_valid name d _ Hd k t. simpl in *.
    rewrite lookup_insert. case_decide; [|by apply Hd].
    intros [= <-]. unfold timestamp.
    by replace (now hc - epoch + epoch) with (now hc) by lia. }
  split; [done|]. eexists.
  by apply resources_changed_since_boot_run.
Qed.

Lemma history_well_formed_witness :
  ∃ changed,
    resources_changed_since_boot (later 6000000 h0) tracked
      (history history0 w0)
    = (Ok changed, history history0 w0).
Proof.
  apply (history_well_formed history0 w0 (later 6000000 h0) tracked
           (now h0 - uptime h0)).
  - repeat constructor; vm_compute; reflexivity.
  - apply wf_db_empty.
  - reflexivity.
Defined.

(** X22. The helper only ever writes the keys of its four resources (the
    three files and the kernel): a key found in the store after any
    history was there before or is one of these. *)
Theorem history_tracked_keys calls w k :
  is_Some (db (history calls w) !! k) →
  is_Some (db w !! k) ∨ k ∈ key_for <$> tracked.
Proof.
  revert k.
  apply (history_keeps
           (λ d, ∀ k, is_Some (d !! k) →
                      is_Some (db w !! k) ∨ k ∈ key_for <$> tracked));
    [|by left].
  apply Forall_forall. intros [[cfg hc] p] _ name d Hname Hd k.
  cbn [fst snd]. rewrite lookup_insert. case_decide as Hk; [|by apply Hd].
  intros _. right. subst k. by apply list_elem_of_fmap_2.
Qed.

Lemma history_tracked_keys_witness :
  is_Some (db w0 !! key_for KERNEL)
  ∨ key_for KERNEL ∈ key_for <$> tracked.
Proof.
  apply (history_tracked_keys history0 w0 (key_for KERNEL)).
  vm_compute. by eexists.
Defined.

(** X23. When the [update-rc.d] command of [update_cpufreq] fails, the
    call ends with that failure after the file was rendered and
    recorded: the store and the file keep the change, and the service is
    not restarted. *)
Theorem update_cpufreq_command_fails cfg h w :
  distrib_codename h = "xenial" →
  is_container h = false →
  governor cfg ∈ [""; "powersave"; "performance"] →
  let command :=
    ondemand (if decide (governor cfg = "") then "defaults" else "remove") in
  exit_status h command ≠ 0 →
  (update_cpufreq cfg h w).1
  = Raise (CalledProcessError command (exit_status h command))
  ∧ db (update_cpufreq cfg h w).2
    = <[key_for CPUFREQUTILS := timestamp (now h)]> (db w)
  ∧ files (update_cpufreq cfg h w).2 = {[CPUFREQUTILS]} ∪ files w
  ∧ ServiceRestart "cpufrequtils"
    ∉ drop (length (trace w)) (trace (update_cpufreq cfg h w).2).
Proof.
  intros Hcode Hcont Hgov command Hfail.
  pose proof (truthy_case (governor cfg)) as Hset.
  apply Z.eqb_neq in Hfail.
  unfold update_cpufreq.
  replace (py_in (governor cfg) [""; "performance"; "powersave"]) with true.
  2:{ symmetry. apply py_in_spec.
      rewrite !elem_of_cons in Hgov. rewrite !elem_of_cons. tauto. }
  rewrite Hcode, Hcont. simpl negb. cbv iota.
  subst command.
  destruct (truthy (governor cfg)); destruct (decide (governor cfg = ""));
    try done;
    unfold bind, _render_boot_resource, render, set_resource, db_set, bind,
      log, check_call, emit, bind, ret, raise; simpl;
    rewrite Hfail; simpl; (split_and!; try done);
    rewrite <- !app_assoc, drop_app_length; simpl;
    rewrite !not_elem_of_cons; split_and!; try done; apply not_elem_of_nil.
Qed.

Lemma update_cpufreq_command_fails_witness :
  (update_cpufreq cfg0 (failing h0) w0).1
  = Raise (CalledProcessError (ondemand "remove") 1)
  ∧ db (update_cpufreq cfg0 (failing h0) w0).2
    = <[key_for CPUFREQUTILS := timestamp (now h0)]> ∅.
Proof.
  destruct (update_cpufreq_command_fails cfg0 (failing h0) w0)
    as (Hraise & Hdb & _).
  - reflexivity.
  - reflexivity.
  - simpl. rewrite !elem_of_cons. tauto.
  - simpl. discriminate.
  - split; [exact Hraise|exact Hdb].
Defined.
